(** * The job lifecycle controller of frontend/js/app.js

    A shallow embedding of the client script: its three module-level
    variables, the properties of the page elements it reads and writes, and
    the part of the browser it talks to (interval timers, [fetch], the
    console, the save-to-disk anchor).

    Every [async] function of the script is cut at its [await]: the part
    that runs up to the first [await] keeps the source's name, the part that
    runs once the awaited response has settled is named [..._resume].  The
    browser runs each part to completion before it handles another event, so
    a part is a function from [world] to [world], and any number of events
    may be handled between a part and its resumption. *)

From Stdlib Require Import QArith Qround.
From stdpp Require Import base option list strings pretty gmap.

Local Open Scope string_scope.

(** ** Strings

    A JavaScript string is kept as the bytes of its UTF-8 encoding. *)

Definition bytes (l : list nat) : string :=
  foldr (λ n s, String (Ascii.ascii_of_nat n) s) "" l.

(** The code points that [String.prototype.trim] removes (WhiteSpace and
    LineTerminator of ECMAScript), each as its UTF-8 encoding: U+0009 to
    U+000D, U+0020, U+00A0, U+1680, U+2000 to U+200A, U+2028, U+2029, U+202F,
    U+205F, U+3000 and U+FEFF. *)
Definition white_space : list string :=
  bytes <$>
    [ [9]; [10]; [11]; [12]; [13]; [32]; [194; 160]; [225; 154; 128];
      [226; 128; 128]; [226; 128; 129]; [226; 128; 130]; [226; 128; 131];
      [226; 128; 132]; [226; 128; 133]; [226; 128; 134]; [226; 128; 135];
      [226; 128; 136]; [226; 128; 137]; [226; 128; 138]; [226; 128; 168];
      [226; 128; 169]; [226; 128; 175]; [226; 129; 159]; [227; 128; 128];
      [239; 187; 191] ].

Fixpoint strip_prefix (p s : string) : option string :=
  match p, s with
  | EmptyString, _ => Some s
  | String a p', String b s' =>
      if Ascii.eqb a b then strip_prefix p' s' else None
  | String _ _, EmptyString => None
  end.

(** Removes one leading token of [ws] from [s], when there is one. *)
Fixpoint strip_one (ws : list string) (s : string) : option string :=
  match ws with
  | [] => None
  | p :: ws' =>
      match strip_prefix p s with
      | Some r => Some r
      | None => strip_one ws' s
      end
  end.

Fixpoint strip_leading (ws : list string) (fuel : nat) (s : string) : string :=
  match fuel with
  | O => s
  | S fuel' =>
      match strip_one ws s with
      | Some r => strip_leading ws fuel' r
      | None => s
      end
  end.

Definition trimStart (s : string) : string :=
  strip_leading white_space (String.length s) s.

Definition trimEnd (s : string) : string :=
  String.rev
    (strip_leading (String.rev <$> white_space) (String.length s) (String.rev s)).

Definition trim (s : string) : string := trimEnd (trimStart s).

(** [x || d] for a field that is a string when it is present: [undefined],
    [null] and the empty string are falsy. *)
Definition truthy (x : option string) : bool :=
  match x with
  | Some s => negb (String.eqb s "")
  | None => false
  end.

Definition or_default (x : option string) (d : string) : string :=
  match x with
  | Some s => if String.eqb s "" then d else s
  | None => d
  end.

(** ** The HTTP interface *)

Definition API_BASE : string := "/api".
Definition API_KEY : string := "[[API_KEY_PLACEHOLDER]]".

Record FormatOption := { qualityLabel : string; selectorValue : string }.

(** The bodies the three JSON endpoints answer with.  A field that is absent
    (or [null]) is [None]; [success] absent is [false]. *)
Module Analyze.
Record data := {
  success : bool;
  title : option string;
  uploader : option string;
  duration_string : option string;
  thumbnail : option string;
  webpage_url : option string;
  formats : option (list FormatOption);
  error : option string
}.
End Analyze.

Module Download.
Record data := {
  success : bool;
  job_id : option string;
  error : option string
}.
End Download.

Module Progress.
Record data := {
  status : option string;
  progress : option Q;
  speed : option string;
  eta : option string;
  filename : option string;
  error : option string
}.
End Progress.

(** How an awaited promise settles.  [Rejected] carries [error.message]; for
    the JSON endpoints it stands for a failed [fetch], a body that
    [response.json()] cannot parse, and a body that parses to [null] (the
    first property read throws, before anything is written). *)
Inductive settled (A : Type) : Type :=
| Rejected (message : string)
| Fulfilled (value : A).
Arguments Rejected {A} message.
Arguments Fulfilled {A} value.

Definition Blob : Type := list Byte.byte.

Module File.
(** [response.ok] and how [response.blob()] settles. *)
Record response := { ok : bool; blob : settled Blob }.
End File.

Inductive http_method := GET | POST.

Inductive request_body :=
| AnalyzeBody (url : string)
| DownloadBody (url quality : string) (start_time end_time : option string).

Record request := {
  path : string;
  method : http_method;
  headers : list (string * string);
  body : option request_body
}.

Definition json_headers : list (string * string) :=
  [("Content-Type", "application/json"); ("X-API-Key", API_KEY)].

Definition key_header : list (string * string) := [("X-API-Key", API_KEY)].

(** ** State

    The three variables of the script. *)
Record globals := {
  currentVideoData : option Analyze.data;
  currentJobId : option string;
  progressInterval : option positive
}.

(** The properties of [elements] that the script reads or writes.  A
    [_hidden] field tells whether the element's class list holds [hidden];
    a [_text] field is its [textContent].  [btnText] and [btnLoader] are the
    two children of [analyzeBtn] that [setLoading] looks up.
    [qualitySelect_options] lists each option's value and label.
    [downloadLink_onclick] is the handler that [showComplete] installs, kept
    as the [filename] its closure captured. *)
Record elements := {
  urlInput_value : string;
  analyzeBtn_disabled : bool;
  btnText_hidden : bool;
  btnLoader_hidden : bool;
  videoCard_hidden : bool;
  thumbnail_src : string;
  thumbnail_alt : string;
  duration_text : string;
  videoTitle_text : string;
  uploader_text : string;
  qualitySelect_options : list (string * string);
  qualitySelect_value : string;
  progressSection_hidden : bool;
  progressPercent_text : string;
  progressFill_width : string;
  progressSpeed_text : string;
  progressEta_text : string;
  completeSection_hidden : bool;
  downloadFilename_text : string;
  downloadLink_onclick : option string;
  errorSection_hidden : bool;
  errorMessage_text : string
}.

(** A suspended [async] function: which one awaits the response, with what
    it captured. *)
Inductive continuation :=
| AnalyzeK
| DownloadK
| ProgressK
| FileK (filename : string).

(** The browser, as far as the script can tell: the interval timers that are
    active and the id the next [setInterval] returns, every request [fetch]
    was called with, the functions that await a response, what
    [console.error] printed and what was handed to the save-to-disk anchor
    (file name and payload). *)
Record browser := {
  timers : gset positive;
  next_timer : positive;
  requests : list request;
  pending : list continuation;
  console : list (string * string);
  saved : list (string * Blob)
}.

Record world := { vars : globals; dom : elements; env : browser }.

Definition on_vars (f : globals → globals) (w : world) : world :=
  {| vars := f (vars w); dom := dom w; env := env w |}.
Definition on_dom (f : elements → elements) (w : world) : world :=
  {| vars := vars w; dom := f (dom w); env := env w |}.
Definition on_env (f : browser → browser) (w : world) : world :=
  {| vars := vars w; dom := dom w; env := f (env w) |}.

Definition set_currentVideoData (v : option Analyze.data) (g : globals) : globals :=
  {| currentVideoData := v; currentJobId := currentJobId g;
     progressInterval := progressInterval g |}.
Definition set_currentJobId (v : option string) (g : globals) : globals :=
  {| currentVideoData := currentVideoData g; currentJobId := v;
     progressInterval := progressInterval g |}.
Definition set_progressInterval (v : option positive) (g : globals) : globals :=
  {| currentVideoData := currentVideoData g; currentJobId := currentJobId g;
     progressInterval := v |}.

Definition set_timers (v : gset positive) (b : browser) : browser :=
  {| timers := v; next_timer := next_timer b; requests := requests b;
     pending := pending b; console := console b; saved := saved b |}.
Definition set_next_timer (v : positive) (b : browser) : browser :=
  {| timers := timers b; next_timer := v; requests := requests b;
     pending := pending b; console := console b; saved := saved b |}.
Definition set_requests (v : list request) (b : browser) : browser :=
  {| timers := timers b; next_timer := next_timer b; requests := v;
     pending := pending b; console := console b; saved := saved b |}.
Definition set_pending (v : list continuation) (b : browser) : browser :=
  {| timers := timers b; next_timer := next_timer b; requests := requests b;
     pending := v; console := console b; saved := saved b |}.
Definition set_console (v : list (string * string)) (b : browser) : browser :=
  {| timers := timers b; next_timer := next_timer b; requests := requests b;
     pending := pending b; console := v; saved := saved b |}.
Definition set_saved (v : list (string * Blob)) (b : browser) : browser :=
  {| timers := timers b; next_timer := next_timer b; requests := requests b;
     pending := pending b; console := console b; saved := v |}.
Definition set_urlInput_value (v : string) (e : elements) : elements :=
  {| urlInput_value := v; analyzeBtn_disabled := analyzeBtn_disabled e;
     btnText_hidden := btnText_hidden e; btnLoader_hidden :=
     btnLoader_hidden e; videoCard_hidden := videoCard_hidden e;
     thumbnail_src := thumbnail_src e; thumbnail_alt := thumbnail_alt e;
     duration_text := duration_text e; videoTitle_text := videoTitle_text e;
     uploader_text := uploader_text e; qualitySelect_options :=
     qualitySelect_options e; qualitySelect_value := qualitySelect_value e;
     progressSection_hidden := progressSection_hidden e;
     progressPercent_text := progressPercent_text e; progressFill_width :=
     progressFill_width e; progressSpeed_text := progressSpeed_text e;
     progressEta_text := progressEta_text e; completeSection_hidden :=
     completeSection_hidden e; downloadFilename_text :=
     downloadFilename_text e; downloadLink_onclick := downloadLink_onclick
     e; errorSection_hidden := errorSection_hidden e; errorMessage_text :=
     errorMessage_text e |}.
Definition set_analyzeBtn_disabled (v : bool) (e : elements) : elements :=
  {| urlInput_value := urlInput_value e; analyzeBtn_disabled := v;
     btnText_hidden := btnText_hidden e; btnLoader_hidden :=
     btnLoader_hidden e; videoCard_hidden := videoCard_hidden e;
     thumbnail_src := thumbnail_src e; thumbnail_alt := thumbnail_alt e;
     duration_text := duration_text e; videoTitle_text := videoTitle_text e;
     uploader_text := uploader_text e; qualitySelect_options :=
     qualitySelect_options e; qualitySelect_value := qualitySelect_value e;
     progressSection_hidden := progressSection_hidden e;
     progressPercent_text := progressPercent_text e; progressFill_width :=
     progressFill_width e; progressSpeed_text := progressSpeed_text e;
     progressEta_text := progressEta_text e; completeSection_hidden :=
     completeSection_hidden e; downloadFilename_text :=
     downloadFilename_text e; downloadLink_onclick := downloadLink_onclick
     e; errorSection_hidden := errorSection_hidden e; errorMessage_text :=
     errorMessage_text e |}.
Definition set_btnText_hidden (v : bool) (e : elements) : elements :=
  {| urlInput_value := urlInput_value e; analyzeBtn_disabled :=
     analyzeBtn_disabled e; btnText_hidden := v; btnLoader_hidden :=
     btnLoader_hidden e; videoCard_hidden := videoCard_hidden e;
     thumbnail_src := thumbnail_src e; thumbnail_alt := thumbnail_alt e;
     duration_text := duration_text e; videoTitle_text := videoTitle_text e;
     uploader_text := uploader_text e; qualitySelect_options :=
     qualitySelect_options e; qualitySelect_value := qualitySelect_value e;
     progressSection_hidden := progressSection_hidden e;
     progressPercent_text := progressPercent_text e; progressFill_width :=
     progressFill_width e; progressSpeed_text := progressSpeed_text e;
     progressEta_text := progressEta_text e; completeSection_hidden :=
     completeSection_hidden e; downloadFilename_text :=
     downloadFilename_text e; downloadLink_onclick := downloadLink_onclick
     e; errorSection_hidden := errorSection_hidden e; errorMessage_text :=
     errorMessage_text e |}.
Definition set_btnLoader_hidden (v : bool) (e : elements) : elements :=
  {| urlInput_value := urlInput_value e; analyzeBtn_disabled :=
     analyzeBtn_disabled e; btnText_hidden := btnText_hidden e;
     btnLoader_hidden := v; videoCard_hidden := videoCard_hidden e;
     thumbnail_src := thumbnail_src e; thumbnail_alt := thumbnail_alt e;
     duration_text := duration_text e; videoTitle_text := videoTitle_text e;
     uploader_text := uploader_text e; qualitySelect_options :=
     qualitySelect_options e; qualitySelect_value := qualitySelect_value e;
     progressSection_hidden := progressSection_hidden e;
     progressPercent_text := progressPercent_text e; progressFill_width :=
     progressFill_width e; progressSpeed_text := progressSpeed_text e;
     progressEta_text := progressEta_text e; completeSection_hidden :=
     completeSection_hidden e; downloadFilename_text :=
     downloadFilename_text e; downloadLink_onclick := downloadLink_onclick
     e; errorSection_hidden := errorSection_hidden e; errorMessage_text :=
     errorMessage_text e |}.
Definition set_videoCard_hidden (v : bool) (e : elements) : elements :=
  {| urlInput_value := urlInput_value e; analyzeBtn_disabled :=
     analyzeBtn_disabled e; btnText_hidden := btnText_hidden e;
     btnLoader_hidden := btnLoader_hidden e; videoCard_hidden := v;
     thumbnail_src := thumbnail_src e; thumbnail_alt := thumbnail_alt e;
     duration_text := duration_text e; videoTitle_text := videoTitle_text e;
     uploader_text := uploader_text e; qualitySelect_options :=
     qualitySelect_options e; qualitySelect_value := qualitySelect_value e;
     progressSection_hidden := progressSection_hidden e;
     progressPercent_text := progressPercent_text e; progressFill_width :=
     progressFill_width e; progressSpeed_text := progressSpeed_text e;
     progressEta_text := progressEta_text e; completeSection_hidden :=
     completeSection_hidden e; downloadFilename_text :=
     downloadFilename_text e; downloadLink_onclick := downloadLink_onclick
     e; errorSection_hidden := errorSection_hidden e; errorMessage_text :=
     errorMessage_text e |}.
Definition set_thumbnail_src (v : string) (e : elements) : elements :=
  {| urlInput_value := urlInput_value e; analyzeBtn_disabled :=
     analyzeBtn_disabled e; btnText_hidden := btnText_hidden e;
     btnLoader_hidden := btnLoader_hidden e; videoCard_hidden :=
     videoCard_hidden e; thumbnail_src := v; thumbnail_alt := thumbnail_alt
     e; duration_text := duration_text e; videoTitle_text := videoTitle_text
     e; uploader_text := uploader_text e; qualitySelect_options :=
     qualitySelect_options e; qualitySelect_value := qualitySelect_value e;
     progressSection_hidden := progressSection_hidden e;
     progressPercent_text := progressPercent_text e; progressFill_width :=
     progressFill_width e; progressSpeed_text := progressSpeed_text e;
     progressEta_text := progressEta_text e; completeSection_hidden :=
     completeSection_hidden e; downloadFilename_text :=
     downloadFilename_text e; downloadLink_onclick := downloadLink_onclick
     e; errorSection_hidden := errorSection_hidden e; errorMessage_text :=
     errorMessage_text e |}.
Definition set_thumbnail_alt (v : string) (e : elements) : elements :=
  {| urlInput_value := urlInput_value e; analyzeBtn_disabled :=
     analyzeBtn_disabled e; btnText_hidden := btnText_hidden e;
     btnLoader_hidden := btnLoader_hidden e; videoCard_hidden :=
     videoCard_hidden e; thumbnail_src := thumbnail_src e; thumbnail_alt :=
     v; duration_text := duration_text e; videoTitle_text := videoTitle_text
     e; uploader_text := uploader_text e; qualitySelect_options :=
     qualitySelect_options e; qualitySelect_value := qualitySelect_value e;
     progressSection_hidden := progressSection_hidden e;
     progressPercent_text := progressPercent_text e; progressFill_width :=
     progressFill_width e; progressSpeed_text := progressSpeed_text e;
     progressEta_text := progressEta_text e; completeSection_hidden :=
     completeSection_hidden e; downloadFilename_text :=
     downloadFilename_text e; downloadLink_onclick := downloadLink_onclick
     e; errorSection_hidden := errorSection_hidden e; errorMessage_text :=
     errorMessage_text e |}.
Definition set_duration_text (v : string) (e : elements) : elements :=
  {| urlInput_value := urlInput_value e; analyzeBtn_disabled :=
     analyzeBtn_disabled e; btnText_hidden := btnText_hidden e;
     btnLoader_hidden := btnLoader_hidden e; videoCard_hidden :=
     videoCard_hidden e; thumbnail_src := thumbnail_src e; thumbnail_alt :=
     thumbnail_alt e; duration_text := v; videoTitle_text := videoTitle_text
     e; uploader_text := uploader_text e; qualitySelect_options :=
     qualitySelect_options e; qualitySelect_value := qualitySelect_value e;
     progressSection_hidden := progressSection_hidden e;
     progressPercent_text := progressPercent_text e; progressFill_width :=
     progressFill_width e; progressSpeed_text := progressSpeed_text e;
     progressEta_text := progressEta_text e; completeSection_hidden :=
     completeSection_hidden e; downloadFilename_text :=
     downloadFilename_text e; downloadLink_onclick := downloadLink_onclick
     e; errorSection_hidden := errorSection_hidden e; errorMessage_text :=
     errorMessage_text e |}.
Definition set_videoTitle_text (v : string) (e : elements) : elements :=
  {| urlInput_value := urlInput_value e; analyzeBtn_disabled :=
     analyzeBtn_disabled e; btnText_hidden := btnText_hidden e;
     btnLoader_hidden := btnLoader_hidden e; videoCard_hidden :=
     videoCard_hidden e; thumbnail_src := thumbnail_src e; thumbnail_alt :=
     thumbnail_alt e; duration_text := duration_text e; videoTitle_text :=
     v; uploader_text := uploader_text e; qualitySelect_options :=
     qualitySelect_options e; qualitySelect_value := qualitySelect_value e;
     progressSection_hidden := progressSection_hidden e;
     progressPercent_text := progressPercent_text e; progressFill_width :=
     progressFill_width e; progressSpeed_text := progressSpeed_text e;
     progressEta_text := progressEta_text e; completeSection_hidden :=
     completeSection_hidden e; downloadFilename_text :=
     downloadFilename_text e; downloadLink_onclick := downloadLink_onclick
     e; errorSection_hidden := errorSection_hidden e; errorMessage_text :=
     errorMessage_text e |}.
Definition set_uploader_text (v : string) (e : elements) : elements :=
  {| urlInput_value := urlInput_value e; analyzeBtn_disabled :=
     analyzeBtn_disabled e; btnText_hidden := btnText_hidden e;
     btnLoader_hidden := btnLoader_hidden e; videoCard_hidden :=
     videoCard_hidden e; thumbnail_src := thumbnail_src e; thumbnail_alt :=
     thumbnail_alt e; duration_text := duration_text e; videoTitle_text :=
     videoTitle_text e; uploader_text := v; qualitySelect_options :=
     qualitySelect_options e; qualitySelect_value := qualitySelect_value e;
     progressSection_hidden := progressSection_hidden e;
     progressPercent_text := progressPercent_text e; progressFill_width :=
     progressFill_width e; progressSpeed_text := progressSpeed_text e;
     progressEta_text := progressEta_text e; completeSection_hidden :=
     completeSection_hidden e; downloadFilename_text :=
     downloadFilename_text e; downloadLink_onclick := downloadLink_onclick
     e; errorSection_hidden := errorSection_hidden e; errorMessage_text :=
     errorMessage_text e |}.
Definition set_qualitySelect_options (v : list (string * string)) (e : elements) : elements :=
  {| urlInput_value := urlInput_value e; analyzeBtn_disabled :=
     analyzeBtn_disabled e; btnText_hidden := btnText_hidden e;
     btnLoader_hidden := btnLoader_hidden e; videoCard_hidden :=
     videoCard_hidden e; thumbnail_src := thumbnail_src e; thumbnail_alt :=
     thumbnail_alt e; duration_text := duration_text e; videoTitle_text :=
     videoTitle_text e; uploader_text := uploader_text e;
     qualitySelect_options := v; qualitySelect_value := qualitySelect_value
     e; progressSection_hidden := progressSection_hidden e;
     progressPercent_text := progressPercent_text e; progressFill_width :=
     progressFill_width e; progressSpeed_text := progressSpeed_text e;
     progressEta_text := progressEta_text e; completeSection_hidden :=
     completeSection_hidden e; downloadFilename_text :=
     downloadFilename_text e; downloadLink_onclick := downloadLink_onclick
     e; errorSection_hidden := errorSection_hidden e; errorMessage_text :=
     errorMessage_text e |}.
Definition set_qualitySelect_value (v : string) (e : elements) : elements :=
  {| urlInput_value := urlInput_value e; analyzeBtn_disabled :=
     analyzeBtn_disabled e; btnText_hidden := btnText_hidden e;
     btnLoader_hidden := btnLoader_hidden e; videoCard_hidden :=
     videoCard_hidden e; thumbnail_src := thumbnail_src e; thumbnail_alt :=
     thumbnail_alt e; duration_text := duration_text e; videoTitle_text :=
     videoTitle_text e; uploader_text := uploader_text e;
     qualitySelect_options := qualitySelect_options e; qualitySelect_value
     := v; progressSection_hidden := progressSection_hidden e;
     progressPercent_text := progressPercent_text e; progressFill_width :=
     progressFill_width e; progressSpeed_text := progressSpeed_text e;
     progressEta_text := progressEta_text e; completeSection_hidden :=
     completeSection_hidden e; downloadFilename_text :=
     downloadFilename_text e; downloadLink_onclick := downloadLink_onclick
     e; errorSection_hidden := errorSection_hidden e; errorMessage_text :=
     errorMessage_text e |}.
Definition set_progressSection_hidden (v : bool) (e : elements) : elements :=
  {| urlInput_value := urlInput_value e; analyzeBtn_disabled :=
     analyzeBtn_disabled e; btnText_hidden := btnText_hidden e;
     btnLoader_hidden := btnLoader_hidden e; videoCard_hidden :=
     videoCard_hidden e; thumbnail_src := thumbnail_src e; thumbnail_alt :=
     thumbnail_alt e; duration_text := duration_text e; videoTitle_text :=
     videoTitle_text e; uploader_text := uploader_text e;
     qualitySelect_options := qualitySelect_options e; qualitySelect_value
     := qualitySelect_value e; progressSection_hidden := v;
     progressPercent_text := progressPercent_text e; progressFill_width :=
     progressFill_width e; progressSpeed_text := progressSpeed_text e;
     progressEta_text := progressEta_text e; completeSection_hidden :=
     completeSection_hidden e; downloadFilename_text :=
     downloadFilename_text e; downloadLink_onclick := downloadLink_onclick
     e; errorSection_hidden := errorSection_hidden e; errorMessage_text :=
     errorMessage_text e |}.
Definition set_progressPercent_text (v : string) (e : elements) : elements :=
  {| urlInput_value := urlInput_value e; analyzeBtn_disabled :=
     analyzeBtn_disabled e; btnText_hidden := btnText_hidden e;
     btnLoader_hidden := btnLoader_hidden e; videoCard_hidden :=
     videoCard_hidden e; thumbnail_src := thumbnail_src e; thumbnail_alt :=
     thumbnail_alt e; duration_text := duration_text e; videoTitle_text :=
     videoTitle_text e; uploader_text := uploader_text e;
     qualitySelect_options := qualitySelect_options e; qualitySelect_value
     := qualitySelect_value e; progressSection_hidden :=
     progressSection_hidden e; progressPercent_text := v; progressFill_width
     := progressFill_width e; progressSpeed_text := progressSpeed_text e;
     progressEta_text := progressEta_text e; completeSection_hidden :=
     completeSection_hidden e; downloadFilename_text :=
     downloadFilename_text e; downloadLink_onclick := downloadLink_onclick
     e; errorSection_hidden := errorSection_hidden e; errorMessage_text :=
     errorMessage_text e |}.
Definition set_progressFill_width (v : string) (e : elements) : elements :=
  {| urlInput_value := urlInput_value e; analyzeBtn_disabled :=
     analyzeBtn_disabled e; btnText_hidden := btnText_hidden e;
     btnLoader_hidden := btnLoader_hidden e; videoCard_hidden :=
     videoCard_hidden e; thumbnail_src := thumbnail_src e; thumbnail_alt :=
     thumbnail_alt e; duration_text := duration_text e; videoTitle_text :=
     videoTitle_text e; uploader_text := uploader_text e;
     qualitySelect_options := qualitySelect_options e; qualitySelect_value
     := qualitySelect_value e; progressSection_hidden :=
     progressSection_hidden e; progressPercent_text := progressPercent_text
     e; progressFill_width := v; progressSpeed_text := progressSpeed_text e;
     progressEta_text := progressEta_text e; completeSection_hidden :=
     completeSection_hidden e; downloadFilename_text :=
     downloadFilename_text e; downloadLink_onclick := downloadLink_onclick
     e; errorSection_hidden := errorSection_hidden e; errorMessage_text :=
     errorMessage_text e |}.
Definition set_progressSpeed_text (v : string) (e : elements) : elements :=
  {| urlInput_value := urlInput_value e; analyzeBtn_disabled :=
     analyzeBtn_disabled e; btnText_hidden := btnText_hidden e;
     btnLoader_hidden := btnLoader_hidden e; videoCard_hidden :=
     videoCard_hidden e; thumbnail_src := thumbnail_src e; thumbnail_alt :=
     thumbnail_alt e; duration_text := duration_text e; videoTitle_text :=
     videoTitle_text e; uploader_text := uploader_text e;
     qualitySelect_options := qualitySelect_options e; qualitySelect_value
     := qualitySelect_value e; progressSection_hidden :=
     progressSection_hidden e; progressPercent_text := progressPercent_text
     e; progressFill_width := progressFill_width e; progressSpeed_text := v;
     progressEta_text := progressEta_text e; completeSection_hidden :=
     completeSection_hidden e; downloadFilename_text :=
     downloadFilename_text e; downloadLink_onclick := downloadLink_onclick
     e; errorSection_hidden := errorSection_hidden e; errorMessage_text :=
     errorMessage_text e |}.
Definition set_progressEta_text (v : string) (e : elements) : elements :=
  {| urlInput_value := urlInput_value e; analyzeBtn_disabled :=
     analyzeBtn_disabled e; btnText_hidden := btnText_hidden e;
     btnLoader_hidden := btnLoader_hidden e; videoCard_hidden :=
     videoCard_hidden e; thumbnail_src := thumbnail_src e; thumbnail_alt :=
     thumbnail_alt e; duration_text := duration_text e; videoTitle_text :=
     videoTitle_text e; uploader_text := uploader_text e;
     qualitySelect_options := qualitySelect_options e; qualitySelect_value
     := qualitySelect_value e; progressSection_hidden :=
     progressSection_hidden e; progressPercent_text := progressPercent_text
     e; progressFill_width := progressFill_width e; progressSpeed_text :=
     progressSpeed_text e; progressEta_text := v; completeSection_hidden :=
     completeSection_hidden e; downloadFilename_text :=
     downloadFilename_text e; downloadLink_onclick := downloadLink_onclick
     e; errorSection_hidden := errorSection_hidden e; errorMessage_text :=
     errorMessage_text e |}.
Definition set_completeSection_hidden (v : bool) (e : elements) : elements :=
  {| urlInput_value := urlInput_value e; analyzeBtn_disabled :=
     analyzeBtn_disabled e; btnText_hidden := btnText_hidden e;
     btnLoader_hidden := btnLoader_hidden e; videoCard_hidden :=
     videoCard_hidden e; thumbnail_src := thumbnail_src e; thumbnail_alt :=
     thumbnail_alt e; duration_text := duration_text e; videoTitle_text :=
     videoTitle_text e; uploader_text := uploader_text e;
     qualitySelect_options := qualitySelect_options e; qualitySelect_value
     := qualitySelect_value e; progressSection_hidden :=
     progressSection_hidden e; progressPercent_text := progressPercent_text
     e; progressFill_width := progressFill_width e; progressSpeed_text :=
     progressSpeed_text e; progressEta_text := progressEta_text e;
     completeSection_hidden := v; downloadFilename_text :=
     downloadFilename_text e; downloadLink_onclick := downloadLink_onclick
     e; errorSection_hidden := errorSection_hidden e; errorMessage_text :=
     errorMessage_text e |}.
Definition set_downloadFilename_text (v : string) (e : elements) : elements :=
  {| urlInput_value := urlInput_value e; analyzeBtn_disabled :=
     analyzeBtn_disabled e; btnText_hidden := btnText_hidden e;
     btnLoader_hidden := btnLoader_hidden e; videoCard_hidden :=
     videoCard_hidden e; thumbnail_src := thumbnail_src e; thumbnail_alt :=
     thumbnail_alt e; duration_text := duration_text e; videoTitle_text :=
     videoTitle_text e; uploader_text := uploader_text e;
     qualitySelect_options := qualitySelect_options e; qualitySelect_value
     := qualitySelect_value e; progressSection_hidden :=
     progressSection_hidden e; progressPercent_text := progressPercent_text
     e; progressFill_width := progressFill_width e; progressSpeed_text :=
     progressSpeed_text e; progressEta_text := progressEta_text e;
     completeSection_hidden := completeSection_hidden e;
     downloadFilename_text := v; downloadLink_onclick :=
     downloadLink_onclick e; errorSection_hidden := errorSection_hidden e;
     errorMessage_text := errorMessage_text e |}.
Definition set_downloadLink_onclick (v : option string) (e : elements) : elements :=
  {| urlInput_value := urlInput_value e; analyzeBtn_disabled :=
     analyzeBtn_disabled e; btnText_hidden := btnText_hidden e;
     btnLoader_hidden := btnLoader_hidden e; videoCard_hidden :=
     videoCard_hidden e; thumbnail_src := thumbnail_src e; thumbnail_alt :=
     thumbnail_alt e; duration_text := duration_text e; videoTitle_text :=
     videoTitle_text e; uploader_text := uploader_text e;
     qualitySelect_options := qualitySelect_options e; qualitySelect_value
     := qualitySelect_value e; progressSection_hidden :=
     progressSection_hidden e; progressPercent_text := progressPercent_text
     e; progressFill_width := progressFill_width e; progressSpeed_text :=
     progressSpeed_text e; progressEta_text := progressEta_text e;
     completeSection_hidden := completeSection_hidden e;
     downloadFilename_text := downloadFilename_text e; downloadLink_onclick
     := v; errorSection_hidden := errorSection_hidden e; errorMessage_text
     := errorMessage_text e |}.
Definition set_errorSection_hidden (v : bool) (e : elements) : elements :=
  {| urlInput_value := urlInput_value e; analyzeBtn_disabled :=
     analyzeBtn_disabled e; btnText_hidden := btnText_hidden e;
     btnLoader_hidden := btnLoader_hidden e; videoCard_hidden :=
     videoCard_hidden e; thumbnail_src := thumbnail_src e; thumbnail_alt :=
     thumbnail_alt e; duration_text := duration_text e; videoTitle_text :=
     videoTitle_text e; uploader_text := uploader_text e;
     qualitySelect_options := qualitySelect_options e; qualitySelect_value
     := qualitySelect_value e; progressSection_hidden :=
     progressSection_hidden e; progressPercent_text := progressPercent_text
     e; progressFill_width := progressFill_width e; progressSpeed_text :=
     progressSpeed_text e; progressEta_text := progressEta_text e;
     completeSection_hidden := completeSection_hidden e;
     downloadFilename_text := downloadFilename_text e; downloadLink_onclick
     := downloadLink_onclick e; errorSection_hidden := v; errorMessage_text
     := errorMessage_text e |}.
Definition set_errorMessage_text (v : string) (e : elements) : elements :=
  {| urlInput_value := urlInput_value e; analyzeBtn_disabled :=
     analyzeBtn_disabled e; btnText_hidden := btnText_hidden e;
     btnLoader_hidden := btnLoader_hidden e; videoCard_hidden :=
     videoCard_hidden e; thumbnail_src := thumbnail_src e; thumbnail_alt :=
     thumbnail_alt e; duration_text := duration_text e; videoTitle_text :=
     videoTitle_text e; uploader_text := uploader_text e;
     qualitySelect_options := qualitySelect_options e; qualitySelect_value
     := qualitySelect_value e; progressSection_hidden :=
     progressSection_hidden e; progressPercent_text := progressPercent_text
     e; progressFill_width := progressFill_width e; progressSpeed_text :=
     progressSpeed_text e; progressEta_text := progressEta_text e;
     completeSection_hidden := completeSection_hidden e;
     downloadFilename_text := downloadFilename_text e; downloadLink_onclick
     := downloadLink_onclick e; errorSection_hidden := errorSection_hidden
     e; errorMessage_text := v |}.

(** ** The browser primitives the script calls *)

(** [w |> f |> g] runs [f], then [g], as two statements in a row. *)
Local Notation "w |> f" := (f w) (at level 45, left associativity, only parsing).

(** [fetch(path, options)]: the request goes out and the calling function is
    suspended until the response settles. *)
Definition send (req : request) (w : world) : world :=
  on_env (λ b, set_requests (requests b ++ [req]) b) w.

Definition suspend (k : continuation) (w : world) : world :=
  on_env (λ b, set_pending (pending b ++ [k]) b) w.

Definition fetch (req : request) (k : continuation) (w : world) : world :=
  w |> send req |> suspend k.

Definition clearInterval (i : positive) (w : world) : world :=
  on_env (λ b, set_timers (timers b ∖ {[i]}) b) w.

(** [setInterval(callback, 500)] returns the id of the timer it starts. *)
Definition setInterval (w : world) : positive * world :=
  let i := next_timer (env w) in
  (i, w |> on_env (λ b, set_timers (timers b ∪ {[i]}) b)
        |> on_env (set_next_timer (i + 1)%positive)).

Definition console_error (label message : string) (w : world) : world :=
  on_env (λ b, set_console (console b ++ [(label, message)]) b) w.

(** [Math.round] on a number taken as an exact rational. *)
Definition Math_round (q : Q) : Z := Qfloor (Qplus q (1 # 2)).

(** [`${v}`] for a variable that holds a string or [null]. *)
Definition template (v : option string) : string :=
  match v with
  | Some s => s
  | None => "null"
  end.

(** ** The functions of app.js *)

Definition hideAllSections (w : world) : world :=
  w |> on_dom (set_videoCard_hidden true)
    |> on_dom (set_progressSection_hidden true)
    |> on_dom (set_completeSection_hidden true)
    |> on_dom (set_errorSection_hidden true).

Definition showError (message : string) (w : world) : world :=
  w |> hideAllSections
    |> on_dom (set_errorMessage_text message)
    |> on_dom (set_errorSection_hidden false).

Definition setLoading (loading : bool) (w : world) : world :=
  if loading then
    w |> on_dom (set_btnText_hidden true)
      |> on_dom (set_btnLoader_hidden false)
      |> on_dom (set_analyzeBtn_disabled true)
  else
    w |> on_dom (set_btnText_hidden false)
      |> on_dom (set_btnLoader_hidden true)
      |> on_dom (set_analyzeBtn_disabled false).

Definition defaultOptions : list (string * string) :=
  [ ("best", "En İyi Kalite"); ("1080p", "1080p (Full HD)");
    ("720p", "720p (HD)"); ("480p", "480p"); ("360p", "360p");
    ("audio", "Sadece Ses (MP3)") ].

(** Writing [innerHTML] replaces the options of the drop-down, which then
    shows the first of them. *)
Definition populateQualityOptions (formats : list FormatOption) (w : world) : world :=
  w |> on_dom (set_qualitySelect_options defaultOptions)
    |> on_dom (set_qualitySelect_value "best").

Definition displayVideoInfo (data : Analyze.data) (w : world) : world :=
  let w1 :=
    w |> on_dom (set_thumbnail_src (or_default (Analyze.thumbnail data) ""))
      |> on_dom (set_thumbnail_alt (or_default (Analyze.title data) "Video Thumbnail"))
      |> on_dom (set_duration_text (or_default (Analyze.duration_string data) "00:00"))
      |> on_dom (set_videoTitle_text (or_default (Analyze.title data) "Bilinmeyen Video"))
      |> on_dom (set_uploader_text (or_default (Analyze.uploader data) "Bilinmeyen Kanal")) in
  let w2 :=
    match Analyze.formats data with
    | Some (f :: fs) => populateQualityOptions (f :: fs) w1
    | _ => w1
    end in
  w2 |> on_dom (set_videoCard_hidden false).

(** [handleAnalyze] up to [await fetch(...)]. *)
Definition handleAnalyze (w : world) : world :=
  let url := trim (urlInput_value (dom w)) in
  if String.eqb url "" then
    showError "Lütfen bir video URL'si girin" w
  else
    w |> setLoading true
      |> hideAllSections
      |> fetch {| path := API_BASE ++ "/analyze"; method := POST;
                  headers := json_headers; body := Some (AnalyzeBody url) |}
               AnalyzeK.

(** [handleAnalyze] from the point where [response.json()] has settled,
    through [catch] and [finally]. *)
Definition handleAnalyze_resume (r : settled Analyze.data) (w : world) : world :=
  match r with
  | Fulfilled data =>
      if Analyze.success data then
        w |> on_vars (set_currentVideoData (Some data))
          |> displayVideoInfo data
      else
        showError (or_default (Analyze.error data) "Video analiz edilemedi") w
  | Rejected message =>
      showError ("Bağlantı hatası: " ++ message) w
  end
  |> setLoading false.

Definition stopProgressPolling (w : world) : world :=
  match progressInterval (vars w) with
  | Some i => w |> clearInterval i |> on_vars (set_progressInterval None)
  | None => w
  end.

Definition startProgressPolling (w : world) : world :=
  let w1 :=
    match progressInterval (vars w) with
    | Some i => clearInterval i w
    | None => w
    end in
  let '(i, w2) := setInterval w1 in
  on_vars (set_progressInterval (Some i)) w2.

(** [handleDownload] up to [await fetch(...)]. *)
Definition handleDownload (w : world) : world :=
  let url :=
    match currentVideoData (vars w) with
    | Some data =>
        if truthy (Analyze.webpage_url data)
        then template (Analyze.webpage_url data)
        else trim (urlInput_value (dom w))
    | None => trim (urlInput_value (dom w))
    end in
  let quality := qualitySelect_value (dom w) in
  let requestBody := DownloadBody url quality None None in
  w |> hideAllSections
    |> on_dom (set_progressSection_hidden false)
    |> fetch {| path := API_BASE ++ "/download"; method := POST;
                headers := json_headers; body := Some requestBody |}
             DownloadK.

Definition handleDownload_resume (r : settled Download.data) (w : world) : world :=
  match r with
  | Fulfilled data =>
      if Download.success data && truthy (Download.job_id data) then
        w |> on_vars (set_currentJobId (Download.job_id data))
          |> startProgressPolling
      else
        showError (or_default (Download.error data) "İndirme başlatılamadı") w
  | Rejected message =>
      showError ("Bağlantı hatası: " ++ message) w
  end.

Definition updateProgress (data : Progress.data) (w : world) : world :=
  let progress := Math_round (default 0%Q (Progress.progress data)) in
  w |> on_dom (set_progressPercent_text (pretty progress ++ "%"))
    |> on_dom (set_progressFill_width (pretty progress ++ "%"))
    |> on_dom (set_progressSpeed_text (or_default (Progress.speed data) "-- MB/s"))
    |> on_dom (set_progressEta_text
                 (if truthy (Progress.eta data)
                  then "Kalan: " ++ template (Progress.eta data)
                  else "Kalan: --")).

Definition showComplete (data : Progress.data) (w : world) : world :=
  let filename := or_default (Progress.filename data) "video.mp4" in
  w |> hideAllSections
    |> on_dom (set_downloadFilename_text filename)
    |> on_dom (set_downloadLink_onclick (Some filename))
    |> on_dom (set_completeSection_hidden false).

(** The callback that [startProgressPolling] hands to [setInterval], up to
    [await fetch(...)]. *)
Definition progressTick (w : world) : world :=
  fetch {| path := API_BASE ++ "/progress/" ++ template (currentJobId (vars w));
           method := GET; headers := key_header; body := None |}
        ProgressK w.

Definition progressTick_resume (r : settled Progress.data) (w : world) : world :=
  match r with
  | Fulfilled data =>
      let w1 := updateProgress data w in
      if decide (Progress.status data = Some "completed") then
        w1 |> stopProgressPolling |> showComplete data
      else if decide (Progress.status data = Some "failed") then
        w1 |> stopProgressPolling
           |> showError (or_default (Progress.error data) "İndirme başarısız oldu")
      else w1
  | Rejected message =>
      console_error "Progress check error:" message w
  end.

(** The [onclick] handler of [downloadLink], up to [await fetch(...)]. *)
Definition downloadLink_click (filename : string) (w : world) : world :=
  fetch {| path := API_BASE ++ "/file/" ++ template (currentJobId (vars w));
           method := GET; headers := key_header; body := None |}
        (FileK filename) w.

(** The rest of the handler.  The temporary anchor is created, clicked and
    removed within this part; what is left of it is the file it saved. *)
Definition downloadLink_click_resume
    (filename : string) (r : settled File.response) (w : world) : world :=
  match r with
  | Fulfilled response =>
      if File.ok response then
        match File.blob response with
        | Fulfilled payload =>
            on_env (λ b, set_saved (saved b ++ [(filename, payload)]) b) w
        | Rejected _ => showError "Dosya indirilirken hata oluştu" w
        end
      else showError "Dosya indirilirken hata oluştu" w
  | Rejected _ => showError "Dosya indirilirken hata oluştu" w
  end.

Definition resetApp (w : world) : world :=
  w |> stopProgressPolling
    |> on_vars (set_currentVideoData None)
    |> on_vars (set_currentJobId None)
    |> on_dom (set_urlInput_value "")
    |> on_dom (set_progressFill_width "0%")
    |> on_dom (set_progressPercent_text "0%")
    |> hideAllSections.

(** ** Events

    What the page can be asked to handle: input from the user, an interval
    that elapses, a response that settles.  [init] registers [handleAnalyze]
    for a click on [analyzeBtn] and for Enter in [urlInput],
    [handleDownload] for [downloadBtn], and [resetApp] for both
    [newDownloadBtn] and [retryBtn]. *)

Inductive response :=
| AnalyzeResponse (r : settled Analyze.data)
| DownloadResponse (r : settled Download.data)
| ProgressResponse (r : settled Progress.data)
| FileResponse (r : settled File.response).

Inductive event :=
| UrlTyped (s : string)
| QualityChosen (q : string)
| AnalyzeClicked
| EnterPressed
| DownloadClicked
| NewDownloadClicked
| RetryClicked
| DownloadLinkClicked
| IntervalElapsed (i : positive)
| Settled (n : nat) (r : response).

Definition resume (k : continuation) (r : response) (w : world) : option world :=
  match k, r with
  | AnalyzeK, AnalyzeResponse r => Some (handleAnalyze_resume r w)
  | DownloadK, DownloadResponse r => Some (handleDownload_resume r w)
  | ProgressK, ProgressResponse r => Some (progressTick_resume r w)
  | FileK filename, FileResponse r => Some (downloadLink_click_resume filename r w)
  | _, _ => None
  end.

(** One event, handled to completion; [None] when the event cannot happen in
    [w]: a click on the disabled [analyzeBtn], an option the drop-down does
    not offer, a link without handler, a timer that is not active, a
    response nobody awaits.  The page and its style sheet are not among the
    sources, so a control inside a section that carries [hidden] is still
    taken to be within the user's reach. *)
Definition step (w : world) (e : event) : option world :=
  match e with
  | UrlTyped s => Some (on_dom (set_urlInput_value s) w)
  | QualityChosen q =>
      if decide (q ∈ (qualitySelect_options (dom w)).*1)
      then Some (on_dom (set_qualitySelect_value q) w)
      else None
  | AnalyzeClicked =>
      if analyzeBtn_disabled (dom w) then None else Some (handleAnalyze w)
  | EnterPressed => Some (handleAnalyze w)
  | DownloadClicked => Some (handleDownload w)
  | NewDownloadClicked => Some (resetApp w)
  | RetryClicked => Some (resetApp w)
  | DownloadLinkClicked =>
      match downloadLink_onclick (dom w) with
      | Some filename => Some (downloadLink_click filename w)
      | None => None
      end
  | IntervalElapsed i =>
      if decide (i ∈ timers (env w)) then Some (progressTick w) else None
  | Settled n r =>
      match pending (env w) !! n with
      | Some k => resume k r (on_env (λ b, set_pending (delete n (pending b)) b) w)
      | None => None
      end
  end.

Fixpoint run (w : world) (es : list event) : option world :=
  match es with
  | [] => Some w
  | e :: es' =>
      match step w e with
      | Some w' => run w' es'
      | None => None
      end
  end.

(** The script as loaded into [page]: the three variables are [null], no
    timer runs, nothing was requested. *)
Definition init (page : elements) : world :=
  {| vars := {| currentVideoData := None; currentJobId := None;
                progressInterval := None |};
     dom := page;
     env := {| timers := ∅; next_timer := 1; requests := []; pending := [];
               console := []; saved := [] |} |}.

Definition reachable (page : elements) (w : world) : Prop :=
  ∃ es, run (init page) es = Some w.

(** ** The phase shown to the user

    The script stores no phase: it is what the page shows.  A section
    without [hidden] gives its phase; with every section hidden the page is
    [Analyzing] while [setLoading] has the button disabled, and [Idle]
    otherwise.  Two sections shown at once are no phase. *)
Inductive Phase := Idle | Analyzing | Ready | Downloading | Completed | Failed.

Definition shown (hidden : bool) (p : Phase) : list Phase :=
  if hidden then [] else [p].

Definition visible_sections (e : elements) : list Phase :=
  shown (videoCard_hidden e) Ready
  ++ shown (progressSection_hidden e) Downloading
  ++ shown (completeSection_hidden e) Completed
  ++ shown (errorSection_hidden e) Failed.

Definition phase (w : world) : option Phase :=
  match visible_sections (dom w) with
  | [] => Some (if analyzeBtn_disabled (dom w) then Analyzing else Idle)
  | [p] => Some p
  | _ => None
  end.

(** A page to run examples on: every section hidden, the button enabled, the
    drop-down on its first option. *)
Definition blank_page : elements :=
  {| urlInput_value := ""; analyzeBtn_disabled := false;
     btnText_hidden := false; btnLoader_hidden := true;
     videoCard_hidden := true; thumbnail_src := ""; thumbnail_alt := "";
     duration_text := ""; videoTitle_text := ""; uploader_text := "";
     qualitySelect_options := defaultOptions; qualitySelect_value := "best";
     progressSection_hidden := true; progressPercent_text := "0%";
     progressFill_width := "0%"; progressSpeed_text := "";
     progressEta_text := ""; completeSection_hidden := true;
     downloadFilename_text := ""; downloadLink_onclick := None;
     errorSection_hidden := true; errorMessage_text := "" |}.

(** ** Invariants

    The predicates the properties below are stated with. *)

(** The timer table holds the timer that [progressInterval] names, and no
    other. *)
Definition timers_tracked (w : world) : Prop :=
  timers (env w)
  = match progressInterval (vars w) with
    | Some i => {[i]}
    | None => ∅
    end.

(** What holds in every world the page can be in: the timer table holds
    exactly the timer that [progressInterval] names, every active timer was
    handed out by an earlier [setInterval], and a timer runs only while a
    job handle is stored. *)
Definition inv (w : world) : Prop :=
  timers_tracked w
  ∧ (∀ i, i ∈ timers (env w) → (i < next_timer (env w))%positive)
  ∧ (is_Some (progressInterval (vars w)) → truthy (currentJobId (vars w)) = true).

(** The requests of the poll and of the retrieval, for the job handle
    [job]. *)
Definition progress_request (job : option string) : request :=
  {| path := "/api/progress/" ++ template job; method := GET;
     headers := key_header; body := None |}.

Definition file_request (job : option string) : request :=
  {| path := "/api/file/" ++ template job; method := GET;
     headers := key_header; body := None |}.

(** A string put together from pieces. *)
Definition cat (ts : list string) : string := foldr String.append "" ts.

(** ** Scenarios

    The responses and the worlds the examples run on. *)

Definition sample_video : Analyze.data :=
  {| Analyze.success := true; Analyze.title := Some "Big Buck Bunny";
     Analyze.uploader := None; Analyze.duration_string := None;
     Analyze.thumbnail := None;
     Analyze.webpage_url := Some "https://example.org/watch?v=1";
     Analyze.formats := None; Analyze.error := None |}.

Definition analyze_refused : Analyze.data :=
  {| Analyze.success := false; Analyze.title := None; Analyze.uploader := None;
     Analyze.duration_string := None; Analyze.thumbnail := None;
     Analyze.webpage_url := None; Analyze.formats := None;
     Analyze.error := Some "Unsupported URL" |}.

Definition job_started : Download.data :=
  {| Download.success := true; Download.job_id := Some "job-1";
     Download.error := None |}.

Definition start_refused : Download.data :=
  {| Download.success := false; Download.job_id := None;
     Download.error := Some "busy" |}.

Definition downloading (percent : Q) : Progress.data :=
  {| Progress.status := Some "downloading"; Progress.progress := Some percent;
     Progress.speed := Some "1.2 MB/s"; Progress.eta := Some "00:10";
     Progress.filename := None; Progress.error := None |}.

Definition finished (filename : option string) : Progress.data :=
  {| Progress.status := Some "completed"; Progress.progress := Some (100 # 1);
     Progress.speed := None; Progress.eta := None;
     Progress.filename := filename; Progress.error := None |}.

Definition disk_full : Progress.data :=
  {| Progress.status := Some "failed"; Progress.progress := None;
     Progress.speed := None; Progress.eta := None; Progress.filename := None;
     Progress.error := Some "disk full" |}.

Definition file_ok (payload : Blob) : settled File.response :=
  Fulfilled {| File.ok := true; File.blob := Fulfilled payload |}.

(** [response.ok] is false; [response.blob()] is not called. *)
Definition file_not_ok : settled File.response :=
  Fulfilled {| File.ok := false; File.blob := Fulfilled [] |}.

(** The world after [es], from the blank page. *)
Definition after (es : list event) : world :=
  default (init blank_page) (run (init blank_page) es).

(** A URL is typed and analyzed, the download is started, the server hands
    out a job: the loop is running. *)
Definition polling_events : list event :=
  [ UrlTyped "https://example.org/watch?v=1";
    AnalyzeClicked;
    Settled 0 (AnalyzeResponse (Fulfilled sample_video));
    DownloadClicked;
    Settled 0 (DownloadResponse (Fulfilled job_started)) ].

Definition polling_world : world := after polling_events.

(** The interval elapses once more and the poll reports the job done. *)
Definition completed_world : world :=
  after (polling_events
         ++ [ IntervalElapsed 1;
              Settled 0 (ProgressResponse (Fulfilled (finished (Some "x.mp4")))) ]).

(** ** Further predicates *)


Definition named (k : continuation) : Prop :=
  match k with
  | FileK filename => filename ≠ ""
  | _ => True
  end.

(** No file name in use is empty: not the one bound to the link, not one a
    retrieval in flight has captured, not one a file was saved under. *)
Definition names_ok (w : world) : Prop :=
  (∀ f, downloadLink_onclick (dom w) = Some f → f ≠ "")
  ∧ Forall named (pending (env w))
  ∧ Forall (λ p : string * Blob, p.1 ≠ "") (saved (env w)).

(** The world in which the first video is ready and nothing is pending. *)
Definition ready_world : world :=
  after [ UrlTyped "https://example.org/watch?v=1";
          AnalyzeClicked;
          Settled 0 (AnalyzeResponse (Fulfilled sample_video)) ].

(** The download is done and the file has been retrieved once. *)
Definition saved_events : list event :=
  (polling_events
   ++ [ IntervalElapsed 1;
        Settled 0 (ProgressResponse (Fulfilled (finished (Some "x.mp4"))));
        DownloadLinkClicked;
        Settled 0 (FileResponse (file_ok [Byte.x00])) ])%list.

Definition saved_world : world := after saved_events.

(** One round of the loop while [n] functions await a response: the
    interval elapses and the poll is answered with [data] before anything
    else happens. *)
Definition poll_round (i : positive) (n : nat) (data : Progress.data) : list event :=
  [ IntervalElapsed i; Settled n (ProgressResponse (Fulfilled data)) ].

Definition poll_rounds (i : positive) (n : nat) (ds : list Progress.data) : list event :=
  concat (poll_round i n <$> ds).

(** A status that keeps the loop going. *)
Definition in_progress (data : Progress.data) : Prop :=
  Progress.status data ≠ Some "completed" ∧ Progress.status data ≠ Some "failed".

(** * Properties *)

(** ** Trimming *)

Lemma strip_one_white_space :
  Forall (λ p, ∀ s, strip_one white_space (p ++ s) = Some s) white_space.
Proof.
  unfold white_space. simpl.
  repeat (apply Forall_cons; split; [intros s; reflexivity|]).
  apply Forall_nil. exact I.
Qed.

Lemma white_space_nonempty : Forall (λ p, (1 ≤ String.length p)%nat) white_space.
Proof.
  unfold white_space. simpl.
  repeat (apply Forall_cons; split; [simpl; lia|]).
  apply Forall_nil. exact I.
Qed.

Lemma length_append (s t : string) :
  String.length (s ++ t) = (String.length s + String.length t)%nat.
Proof. induction s as [|a s IH]; simpl; [done | by rewrite IH]. Qed.

Lemma cat_length (ts : list string) :
  Forall (.∈ white_space) ts → (length ts ≤ String.length (cat ts))%nat.
Proof.
  induction 1 as [|p ts Hp _ IH]; simpl; [lia|].
  rewrite length_append.
  pose proof (proj1 (Forall_forall _ _) white_space_nonempty p Hp). simpl in *. lia.
Qed.

Lemma strip_leading_white_space (ts : list string) (n : nat) :
  Forall (.∈ white_space) ts → (length ts ≤ n)%nat →
  strip_leading white_space n (cat ts) = "".
Proof.
  intros Hts. revert n.
  induction Hts as [|p ts Hp _ IH]; intros n Hn.
  - destruct n; reflexivity.
  - destruct n as [|n]; simpl in Hn; [lia|].
    change (strip_leading white_space (S n) (cat (p :: ts)))
      with (match strip_one white_space (p ++ cat ts) with
            | Some r => strip_leading white_space n r
            | None => p ++ cat ts
            end).
    rewrite (proj1 (Forall_forall _ _) strip_one_white_space p Hp).
    apply IH. lia.
Qed.

(** A string made of white space only trims to the empty string. *)
Lemma trim_white_space (ts : list string) :
  Forall (.∈ white_space) ts → trim (cat ts) = "".
Proof.
  intros Hts. unfold trim, trimStart.
  rewrite strip_leading_white_space; [reflexivity | done | by apply cat_length].
Qed.

Lemma trim_empty : trim "" = "".
Proof. reflexivity. Qed.

(** ** What the helpers leave alone *)

Lemma showError_shows (message : string) (w : world) :
  phase (showError message w) = Some Failed
  ∧ errorMessage_text (dom (showError message w)) = message
  ∧ errorSection_hidden (dom (showError message w)) = false
  ∧ videoCard_hidden (dom (showError message w)) = true
  ∧ progressSection_hidden (dom (showError message w)) = true
  ∧ completeSection_hidden (dom (showError message w)) = true.
Proof. repeat split. Qed.

Lemma showError_frame (message : string) (w : world) :
  vars (showError message w) = vars w ∧ env (showError message w) = env w.
Proof. split; reflexivity. Qed.

Lemma fetch_frame (req : request) (k : continuation) (w : world) :
  vars (fetch req k w) = vars w
  ∧ dom (fetch req k w) = dom w
  ∧ timers (env (fetch req k w)) = timers (env w)
  ∧ next_timer (env (fetch req k w)) = next_timer (env w)
  ∧ requests (env (fetch req k w)) = (requests (env w) ++ [req])%list
  ∧ pending (env (fetch req k w)) = (pending (env w) ++ [k])%list
  ∧ console (env (fetch req k w)) = console (env w)
  ∧ saved (env (fetch req k w)) = saved (env w).
Proof. repeat split. Qed.

Lemma delete_last {A} (l : list A) (x : A) :
  delete (length l) (l ++ [x])%list = l.
Proof. induction l as [|y l IH]; simpl; [done | by rewrite IH]. Qed.

Lemma lookup_last {A} (l : list A) (x : A) :
  (l ++ [x])%list !! length l = Some x.
Proof. induction l as [|y l IH]; simpl; done. Qed.

(** The response to a request settling before anything else happens: the
    suspended function resumes in the world the request left behind. *)
Lemma step_settle_fetch (req : request) (k : continuation) (r : response) (w : world) :
  step (fetch req k w) (Settled (length (pending (env w))) r)
  = resume k r (send req w).
Proof.
  unfold step, fetch, suspend. cbn [env on_env pending set_pending send].
  cbn [pending set_requests]. rewrite lookup_last.
  f_equal. destruct w as [g e b]. unfold on_env, send, on_env. cbn.
  rewrite delete_last. destruct b; reflexivity.
Qed.

(** ** Input validation in [handleAnalyze] *)

(** C5: when the URL field is empty, or holds white space only, so that it
    trims to the empty string, [handleAnalyze] calls no [fetch] -- the
    browser side is untouched, no request is added and no function is left
    awaiting one -- and shows the error section, alone, with the message
    reserved for the empty URL. *)
Theorem handleAnalyze_empty_url (w : world) :
  trim (urlInput_value (dom w)) = "" →
  handleAnalyze w = showError "Lütfen bir video URL'si girin" w
  ∧ env (handleAnalyze w) = env w
  ∧ requests (env (handleAnalyze w)) = requests (env w)
  ∧ pending (env (handleAnalyze w)) = pending (env w)
  ∧ phase (handleAnalyze w) = Some Failed
  ∧ errorMessage_text (dom (handleAnalyze w)) = "Lütfen bir video URL'si girin".
Proof.
  intros Hurl. unfold handleAnalyze. rewrite Hurl. simpl String.eqb. cbv iota.
  repeat split.
Qed.

Lemma handleAnalyze_empty_url_witness :
  let w := on_dom (set_urlInput_value (cat [" "; bytes [9]; bytes [194; 160]]))
             (init blank_page) in
  trim (urlInput_value (dom w)) = ""
  ∧ requests (env (handleAnalyze w)) = []
  ∧ phase (handleAnalyze w) = Some Failed.
Proof.
  intros w.
  assert (Hw : trim (urlInput_value (dom w)) = "") by reflexivity.
  destruct (handleAnalyze_empty_url w Hw) as (_ & _ & Hreq & _ & Hphase & _).
  split; [exact Hw | split; [exact Hreq | exact Hphase]].
Defined.

(** A field of white space only is such an input. *)
Lemma handleAnalyze_white_space_only (ts : list string) (w : world) :
  Forall (.∈ white_space) ts →
  urlInput_value (dom w) = cat ts →
  requests (env (handleAnalyze w)) = requests (env w)
  ∧ phase (handleAnalyze w) = Some Failed.
Proof.
  intros Hts Hurl.
  unfold handleAnalyze. rewrite Hurl, trim_white_space by done.
  split; reflexivity.
Qed.


(** ** Starting a download *)

(** [handleDownload] has no branch that returns early: whatever the state,
    it calls [fetch] once, for the download endpoint. *)
Lemma handleDownload_one_request (w : world) :
  ∃ url,
    requests (env (handleDownload w))
    = (requests (env w)
       ++ [ {| path := "/api/download"; method := POST; headers := json_headers;
               body := Some (DownloadBody url (qualitySelect_value (dom w))
                               None None) |} ])%list
    ∧ pending (env (handleDownload w)) = (pending (env w) ++ [DownloadK])%list.
Proof.
  unfold handleDownload.
  destruct (currentVideoData (vars w)) as [data|];
    [destruct (truthy (Analyze.webpage_url data))|];
    eexists; split; reflexivity.
Qed.

(** C10: [handleDownload] checks nothing.  With no stored metadata and an
    empty URL field it still calls [fetch] exactly once: a POST to the
    download endpoint whose body carries the empty string as [url], the
    value of the drop-down as [quality], and [null] for both times. *)
Theorem handleDownload_no_validation (w : world) :
  currentVideoData (vars w) = None →
  urlInput_value (dom w) = "" →
  requests (env (handleDownload w))
  = (requests (env w)
     ++ [ {| path := "/api/download"; method := POST; headers := json_headers;
             body := Some (DownloadBody "" (qualitySelect_value (dom w))
                             None None) |} ])%list
  ∧ pending (env (handleDownload w)) = (pending (env w) ++ [DownloadK])%list
  ∧ phase (handleDownload w) = Some Downloading.
Proof.
  intros Hdata Hurl. unfold handleDownload. rewrite Hdata, Hurl.
  repeat split.
Qed.

Lemma handleDownload_no_validation_witness :
  requests (env (handleDownload (init blank_page)))
  = [ {| path := "/api/download"; method := POST; headers := json_headers;
         body := Some (DownloadBody "" "best" None None) |} ].
Proof.
  exact (proj1 (handleDownload_no_validation (init blank_page) eq_refl eq_refl)).
Defined.

(** ** Analyze responses *)



Lemma or_default_present (s d : string) : s ≠ "" → or_default (Some s) d = s.
Proof.
  intros Hs. simpl. by destruct (String.eqb_spec s "").
Qed.




(** A response with [success] false, and a request that fails, both end in
    [Failed]; the stored metadata is not touched. *)
Lemma handleAnalyze_resume_failure (r : settled Analyze.data) (w : world) :
  match r with
  | Fulfilled data => Analyze.success data = false
  | Rejected _ => True
  end →
  let w' := handleAnalyze_resume r w in
  phase w' = Some Failed
  ∧ errorMessage_text (dom w')
    = match r with
      | Fulfilled data => or_default (Analyze.error data) "Video analiz edilemedi"
      | Rejected message => "Bağlantı hatası: " ++ message
      end
  ∧ vars w' = vars w
  ∧ env w' = env w.
Proof.
  intros Hr. unfold handleAnalyze_resume.
  destruct r as [message|data]; [|rewrite Hr]; repeat split.
Qed.

(** ** Poll responses *)

Lemma stopProgressPolling_stops (w : world) :
  timers_tracked w →
  progressInterval (vars (stopProgressPolling w)) = None
  ∧ timers (env (stopProgressPolling w)) = ∅.
Proof.
  unfold timers_tracked, stopProgressPolling.
  destruct (progressInterval (vars w)) as [i|] eqn:Hi; intros Ht.
  - split; [reflexivity|]. cbn. rewrite Ht. apply difference_diag_L.
  - by rewrite Hi.
Qed.

Lemma stopProgressPolling_frame (w : world) :
  let w' := stopProgressPolling w in
  dom w' = dom w
  ∧ currentVideoData (vars w') = currentVideoData (vars w)
  ∧ currentJobId (vars w') = currentJobId (vars w)
  ∧ next_timer (env w') = next_timer (env w)
  ∧ requests (env w') = requests (env w)
  ∧ pending (env w') = pending (env w)
  ∧ console (env w') = console (env w)
  ∧ saved (env w') = saved (env w).
Proof.
  unfold stopProgressPolling.
  destruct (progressInterval (vars w)); repeat split.
Qed.

(** Calling it with no timer running changes nothing, so calling it twice
    is calling it once. *)
Lemma stopProgressPolling_idempotent (w : world) :
  stopProgressPolling (stopProgressPolling w) = stopProgressPolling w.
Proof.
  unfold stopProgressPolling.
  destruct (progressInterval (vars w)) eqn:Hi; cbn; rewrite ?Hi; reflexivity.
Qed.

Lemma updateProgress_frame (data : Progress.data) (w : world) :
  let w' := updateProgress data w in
  vars w' = vars w
  ∧ env w' = env w
  ∧ visible_sections (dom w') = visible_sections (dom w)
  ∧ analyzeBtn_disabled (dom w') = analyzeBtn_disabled (dom w).
Proof. repeat split. Qed.

Lemma showComplete_shows (data : Progress.data) (w : world) :
  let w' := showComplete data w in
  phase w' = Some Completed
  ∧ downloadFilename_text (dom w') = or_default (Progress.filename data) "video.mp4"
  ∧ downloadLink_onclick (dom w')
    = Some (or_default (Progress.filename data) "video.mp4")
  ∧ vars w' = vars w
  ∧ env w' = env w.
Proof. repeat split. Qed.

(** C2: a poll response with a terminal status ends the loop, any other
    keeps it.  On [completed] the timer is cancelled and forgotten, the
    completed section is the one shown, and the reported file name is shown
    and bound to the retrieval link.  On [failed] the timer is cancelled and
    forgotten and the error section is the one shown, with the server's
    message, or ["İndirme başarısız oldu"] when there is none.  On any other
    status the timer and the sections stay as they were. *)
Theorem progressTick_resume_status (data : Progress.data) (w : world) :
  timers_tracked w →
  let w' := progressTick_resume (Fulfilled data) w in
  (Progress.status data = Some "completed" →
     progressInterval (vars w') = None
     ∧ timers (env w') = ∅
     ∧ phase w' = Some Completed
     ∧ (∀ f, Progress.filename data = Some f → f ≠ "" →
          downloadFilename_text (dom w') = f
          ∧ downloadLink_onclick (dom w') = Some f))
  ∧ (Progress.status data = Some "failed" →
     progressInterval (vars w') = None
     ∧ timers (env w') = ∅
     ∧ phase w' = Some Failed
     ∧ (∀ m, Progress.error data = Some m → m ≠ "" →
          errorMessage_text (dom w') = m)
     ∧ (Progress.error data = None →
          errorMessage_text (dom w') = "İndirme başarısız oldu"))
  ∧ (Progress.status data ≠ Some "completed" →
     Progress.status data ≠ Some "failed" →
     progressInterval (vars w') = progressInterval (vars w)
     ∧ timers (env w') = timers (env w)
     ∧ phase w' = phase w).
Proof.
  intros Ht w'. subst w'. unfold progressTick_resume.
  assert (Ht' : timers_tracked (updateProgress data w)) by exact Ht.
  destruct (stopProgressPolling_stops _ Ht') as [Hnone Hempty].
  split; [|split].
  - intros Hs. rewrite decide_True by done.
    destruct (showComplete_shows data (stopProgressPolling (updateProgress data w)))
      as (Hphase & Hname & Hlink & Hvars & Henv).
    cbv zeta in *. rewrite Hvars, Henv, Hname, Hlink.
    split; [done|]. split; [done|]. split; [done|].
    intros f H Hf. split.
    + rewrite H. by apply or_default_present.
    + rewrite H. f_equal. by apply or_default_present.
  - intros Hs. rewrite decide_False by (rewrite Hs; discriminate).
    rewrite decide_True by done.
    set (m := or_default _ _).
    destruct (showError_shows m (stopProgressPolling (updateProgress data w)))
      as (Hphase & Hmsg & _).
    destruct (showError_frame m (stopProgressPolling (updateProgress data w)))
      as (Hvars & Henv).
    rewrite Hvars, Henv, Hmsg. subst m.
    repeat split; try done.
    + intros m' -> Hm. by apply or_default_present.
    + by intros ->.
  - intros Hc Hf. rewrite !decide_False by done.
    repeat split.
Qed.

Lemma polling_world_reachable : reachable blank_page polling_world.
Proof. exists polling_events. vm_compute. reflexivity. Qed.

Lemma polling_world_state :
  phase polling_world = Some Downloading
  ∧ currentJobId (vars polling_world) = Some "job-1"
  ∧ progressInterval (vars polling_world) = Some 1%positive
  ∧ timers (env polling_world) = {[1%positive]}
  ∧ pending (env polling_world) = [].
Proof. vm_compute. repeat split. Qed.

Lemma progressTick_resume_status_witness :
  let w' := progressTick_resume (Fulfilled disk_full) polling_world in
  timers_tracked polling_world
  ∧ progressInterval (vars w') = None
  ∧ timers (env w') = ∅
  ∧ phase w' = Some Failed
  ∧ errorMessage_text (dom w') = "disk full".
Proof.
  intros w'.
  assert (Ht : timers_tracked polling_world) by (vm_compute; reflexivity).
  destruct (progressTick_resume_status disk_full polling_world Ht)
    as (_ & Hfailed & _).
  destruct (Hfailed eq_refl) as (Hnone & Hempty & Hphase & Hmsg & _).
  split; [exact Ht|]. split; [exact Hnone|]. split; [exact Hempty|].
  split; [exact Hphase|].
  apply (Hmsg "disk full" eq_refl). by vm_compute.
Defined.

(** C4: a poll whose request fails, or whose response does not parse,
    changes neither the variables nor the page -- the phase stays what it
    was, [Downloading] while a download runs, and no error is shown -- and
    leaves the timer running: the only trace is a line on the console, and
    the interval can elapse again. *)
Theorem progressTick_rejected (i : positive) (message : string) (w : world) :
  i ∈ timers (env w) →
  ∃ w1 w2,
    step w (IntervalElapsed i) = Some w1
    ∧ step w1 (Settled (length (pending (env w)))
                 (ProgressResponse (Rejected message))) = Some w2
    ∧ vars w2 = vars w
    ∧ dom w2 = dom w
    ∧ phase w2 = phase w
    ∧ timers (env w2) = timers (env w)
    ∧ pending (env w2) = pending (env w)
    ∧ console (env w2)
      = (console (env w) ++ [("Progress check error:", message)])%list
    ∧ is_Some (step w2 (IntervalElapsed i)).
Proof.
  intros Hi.
  eexists _, _. split; [|split].
  - unfold step. rewrite decide_True by done. reflexivity.
  - unfold progressTick. rewrite step_settle_fetch. reflexivity.
  - repeat split.
    unfold step. rewrite decide_True by exact Hi. by eexists.
Qed.

Lemma progressTick_rejected_witness :
  ∃ w2,
    run polling_world
      [ IntervalElapsed 1;
        Settled 0 (ProgressResponse (Rejected "Failed to fetch")) ] = Some w2
    ∧ phase w2 = Some Downloading
    ∧ timers (env w2) = {[1%positive]}.
Proof.
  assert (Hi : 1%positive ∈ timers (env polling_world)).
  { rewrite (proj1 (proj2 (proj2 (proj2 polling_world_state)))).
    by apply elem_of_singleton. }
  destruct (progressTick_rejected 1 "Failed to fetch" polling_world Hi)
    as (w1 & w2 & H1 & H2 & _ & _ & Hphase & Htimers & _).
  exists w2. cbn [run]. rewrite H1.
  rewrite (proj2 (proj2 (proj2 (proj2 polling_world_state)))) in H2.
  cbn [length] in H2. rewrite H2.
  split; [reflexivity|].
  rewrite Hphase, Htimers.
  split; [exact (proj1 polling_world_state)|].
  exact (proj1 (proj2 (proj2 (proj2 polling_world_state)))).
Defined.

(** Whatever was handled since the request went out, a rejected poll
    resumes to a console line and nothing else. *)
Lemma progressTick_resume_rejected (message : string) (w : world) :
  let w' := progressTick_resume (Rejected message) w in
  vars w' = vars w ∧ dom w' = dom w ∧ timers (env w') = timers (env w)
  ∧ requests (env w') = requests (env w) ∧ saved (env w') = saved (env w).
Proof. repeat split. Qed.

(** ** File retrieval *)

(** A click on the link and the response to its request, with nothing
    handled in between. *)
Lemma retrieval_run (filename : string) (r : settled File.response) (w : world) :
  downloadLink_onclick (dom w) = Some filename →
  run w [ DownloadLinkClicked; Settled (length (pending (env w))) (FileResponse r) ]
  = Some (downloadLink_click_resume filename r
            (send (file_request (currentJobId (vars w))) w)).
Proof.
  intros Hlink. cbn [run]. unfold step at 1. rewrite Hlink.
  unfold downloadLink_click. rewrite step_settle_fetch. reflexivity.
Qed.

(** C9: a poll response with status [completed] and no [filename] makes the
    page show ["video.mp4"] and binds that name to the retrieval link, so
    that a retrieval that succeeds saves the payload as ["video.mp4"]. *)
Theorem completed_without_filename
    (data : Progress.data) (payload : Blob) (w : world) :
  Progress.status data = Some "completed" →
  Progress.filename data = None →
  let w' := progressTick_resume (Fulfilled data) w in
  downloadFilename_text (dom w') = "video.mp4"
  ∧ downloadLink_onclick (dom w') = Some "video.mp4"
  ∧ ∃ w2,
      run w' [ DownloadLinkClicked;
               Settled (length (pending (env w'))) (FileResponse (file_ok payload)) ]
      = Some w2
      ∧ saved (env w2) = (saved (env w) ++ [("video.mp4", payload)])%list.
Proof.
  intros Hs Hf w'. subst w'. unfold progressTick_resume.
  rewrite decide_True by done.
  set (w0 := stopProgressPolling (updateProgress data w)).
  assert (Hsaved : saved (env w0) = saved (env w)).
  { subst w0.
    destruct (stopProgressPolling_frame (updateProgress data w))
      as (_ & _ & _ & _ & _ & _ & _ & Hsv). exact Hsv. }
  destruct (showComplete_shows data w0) as (_ & Hname & Hlink & _ & Henv).
  cbv zeta in Hname, Hlink, Henv. rewrite Hf in Hname, Hlink.
  change (or_default None "video.mp4") with "video.mp4" in Hname, Hlink.
  split; [exact Hname|]. split; [exact Hlink|].
  eexists. split; [apply retrieval_run; exact Hlink|].
  change (saved (env (showComplete data w0)) ++ [("video.mp4", payload)]
          = saved (env w) ++ [("video.mp4", payload)])%list.
  by rewrite Henv, Hsaved.
Qed.

Lemma completed_without_filename_witness :
  let w' := progressTick_resume (Fulfilled (finished None)) polling_world in
  downloadFilename_text (dom w') = "video.mp4"
  ∧ downloadLink_onclick (dom w') = Some "video.mp4".
Proof.
  intros w'.
  destruct (completed_without_filename (finished None) [] polling_world
              eq_refl eq_refl) as (Hname & Hlink & _).
  split; [exact Hname | exact Hlink].
Defined.

(** C6, as the code has it: a retrieval whose response is not a success
    leaves the [Completed] phase.  [showError] hides the completed section
    and shows the error section with the retrieval message, so the phase is
    [Failed]; the variables, the timers, the file name on the page and the
    handler of the link stay as they were.  A retrieval that succeeds saves
    the payload under the bound name and changes neither the variables nor
    the page, so that it can be repeated without a transition. *)
Theorem retrieval_outcome
    (filename : string) (r : settled File.response) (w : world) :
  downloadLink_onclick (dom w) = Some filename →
  ∃ w2,
    run w [ DownloadLinkClicked; Settled (length (pending (env w))) (FileResponse r) ]
    = Some w2
    ∧ vars w2 = vars w
    ∧ timers (env w2) = timers (env w)
    ∧ requests (env w2)
      = (requests (env w) ++ [file_request (currentJobId (vars w))])%list
    ∧ downloadFilename_text (dom w2) = downloadFilename_text (dom w)
    ∧ downloadLink_onclick (dom w2) = Some filename
    ∧ match r with
      | Fulfilled {| File.ok := true; File.blob := Fulfilled payload |} =>
          dom w2 = dom w
          ∧ phase w2 = phase w
          ∧ saved (env w2) = (saved (env w) ++ [(filename, payload)])%list
      | _ =>
          phase w2 = Some Failed
          ∧ completeSection_hidden (dom w2) = true
          ∧ errorMessage_text (dom w2) = "Dosya indirilirken hata oluştu"
          ∧ saved (env w2) = saved (env w)
      end.
Proof.
  intros Hlink. eexists. split; [by apply retrieval_run|].
  unfold downloadLink_click_resume.
  destruct r as [message|[[] [message|payload]]]; cbn [File.ok File.blob];
    rewrite <- Hlink; repeat split.
Qed.

Lemma completed_world_state :
  phase completed_world = Some Completed
  ∧ downloadLink_onclick (dom completed_world) = Some "x.mp4"
  ∧ downloadFilename_text (dom completed_world) = "x.mp4"
  ∧ timers (env completed_world) = ∅
  ∧ pending (env completed_world) = [].
Proof. vm_compute. repeat split. Qed.

(** Three polls in a row, [downloading] at 10, [downloading] at 55.5, then
    [completed] with file ["x.mp4"]: the page ends in [Completed] with that
    name, and the interval can no longer elapse. *)
Example three_polls :
  ∃ w,
    run polling_world
      [ IntervalElapsed 1;
        Settled 0 (ProgressResponse (Fulfilled (downloading (10 # 1))));
        IntervalElapsed 1;
        Settled 0 (ProgressResponse (Fulfilled (downloading (111 # 2))));
        IntervalElapsed 1;
        Settled 0 (ProgressResponse (Fulfilled (finished (Some "x.mp4")))) ]
    = Some w
    ∧ phase w = Some Completed
    ∧ downloadFilename_text (dom w) = "x.mp4"
    ∧ progressPercent_text (dom w) = "100%"
    ∧ timers (env w) = ∅
    ∧ step w (IntervalElapsed 1) = None.
Proof.
  eexists. split; [vm_compute; reflexivity|].
  vm_compute. repeat split.
Qed.

Lemma retrieval_outcome_witness :
  ∃ w2,
    run completed_world
      [ DownloadLinkClicked; Settled 0 (FileResponse (file_ok [Byte.x00])) ]
    = Some w2
    ∧ phase w2 = Some Completed
    ∧ saved (env w2) = [("x.mp4", [Byte.x00])].
Proof.
  destruct (retrieval_outcome "x.mp4" (file_ok [Byte.x00]) completed_world eq_refl)
    as (w2 & Hrun & _ & _ & _ & _ & _ & _ & Hphase & Hsaved).
  exists w2. split; [exact Hrun|]. split; [exact Hphase | exact Hsaved].
Defined.

(** The response of the file endpoint is not a success: the page leaves
    [Completed] for [Failed], and the completed section is hidden. *)
Lemma retrieval_failure_leaves_completed :
  phase completed_world = Some Completed
  ∧ ∃ w2,
      run completed_world [ DownloadLinkClicked; Settled 0 (FileResponse file_not_ok) ]
      = Some w2
      ∧ phase w2 = Some Failed
      ∧ phase w2 ≠ phase completed_world
      ∧ completeSection_hidden (dom w2) = true.
Proof.
  split; [exact (proj1 completed_world_state)|].
  eexists. split; [vm_compute; reflexivity|].
  vm_compute. repeat split; discriminate.
Qed.

(** ** Timers and the job handle along every run *)

Lemma inv_init (page : elements) : inv (init page).
Proof.
  split; [reflexivity|]. split.
  - intros i Hi. cbn in Hi. by apply not_elem_of_empty in Hi.
  - intros [i Hi]. discriminate.
Qed.

(** [inv] looks at two variables and at the timers only. *)
Lemma inv_frame (w w' : world) :
  progressInterval (vars w') = progressInterval (vars w) →
  currentJobId (vars w') = currentJobId (vars w) →
  timers (env w') = timers (env w) →
  next_timer (env w') = next_timer (env w) →
  inv w → inv w'.
Proof.
  unfold inv, timers_tracked. intros -> -> -> ->. done.
Qed.

Lemma inv_stopProgressPolling (w : world) : inv w → inv (stopProgressPolling w).
Proof.
  intros (Ht & Hlt & Hjob).
  destruct (stopProgressPolling_stops w Ht) as [Hnone Hempty].
  unfold inv, timers_tracked. rewrite Hnone, Hempty.
  split; [done|]. split.
  - intros i Hi. by apply not_elem_of_empty in Hi.
  - intros [i Hi]. discriminate.
Qed.

Lemma startProgressPolling_timers (w : world) :
  timers_tracked w →
  progressInterval (vars (startProgressPolling w)) = Some (next_timer (env w))
  ∧ timers (env (startProgressPolling w)) = {[next_timer (env w)]}
  ∧ next_timer (env (startProgressPolling w)) = (next_timer (env w) + 1)%positive
  ∧ currentJobId (vars (startProgressPolling w)) = currentJobId (vars w).
Proof.
  unfold timers_tracked, startProgressPolling. intros Ht.
  destruct (progressInterval (vars w)) as [i|]; cbn; rewrite Ht;
    (split; [reflexivity|]); (split; [|split; reflexivity]).
  - rewrite difference_diag_L. apply (left_id_L ∅ (∪)).
  - apply (left_id_L ∅ (∪)).
Qed.

Lemma inv_startProgressPolling (w : world) :
  truthy (currentJobId (vars w)) = true → inv w → inv (startProgressPolling w).
Proof.
  intros Hjob (Ht & _ & _).
  destruct (startProgressPolling_timers w Ht) as (Hint & Htimers & Hnext & Hid).
  unfold inv, timers_tracked. rewrite Hint, Htimers, Hnext, Hid.
  split; [done|]. split; [|done].
  intros i Hi. apply elem_of_singleton in Hi as ->. lia.
Qed.

Lemma hideAllSections_hides (w : world) :
  visible_sections (dom (hideAllSections w)) = []
  ∧ analyzeBtn_disabled (dom (hideAllSections w)) = analyzeBtn_disabled (dom w).
Proof. split; reflexivity. Qed.

Lemma resetApp_clears (w : world) :
  timers_tracked w →
  currentVideoData (vars (resetApp w)) = None
  ∧ currentJobId (vars (resetApp w)) = None
  ∧ progressInterval (vars (resetApp w)) = None
  ∧ timers (env (resetApp w)) = ∅
  ∧ phase (resetApp w) = Some (if analyzeBtn_disabled (dom w) then Analyzing else Idle)
  ∧ urlInput_value (dom (resetApp w)) = ""
  ∧ progressPercent_text (dom (resetApp w)) = "0%"
  ∧ progressFill_width (dom (resetApp w)) = "0%"
  ∧ requests (env (resetApp w)) = requests (env w).
Proof.
  intros Ht. destruct (stopProgressPolling_stops w Ht) as [Hnone Hempty].
  destruct (stopProgressPolling_frame w) as (Hdom & _ & _ & _ & Hreq & _).
  split; [reflexivity|]. split; [reflexivity|].
  split; [exact Hnone|]. split; [exact Hempty|].
  split; [|split; [reflexivity|split; [reflexivity|split; [reflexivity|exact Hreq]]]].
  unfold resetApp, phase.
  set (w0 := on_dom (set_progressPercent_text "0%") _).
  destruct (hideAllSections_hides w0) as [-> ->]. subst w0.
  cbn [on_dom on_vars dom analyzeBtn_disabled set_progressPercent_text
       set_progressFill_width set_urlInput_value].
  cbv zeta in Hdom. by rewrite Hdom.
Qed.

Lemma inv_resetApp (w : world) : inv w → inv (resetApp w).
Proof.
  intros Hw. pose proof (inv_stopProgressPolling w Hw) as (_ & Hlt & _).
  destruct Hw as (Ht & _ & _).
  destruct (resetApp_clears w Ht) as (_ & _ & Hnone & Hempty & _).
  unfold inv, timers_tracked. rewrite Hnone, Hempty.
  split; [done|]. split.
  - intros i Hi. by apply not_elem_of_empty in Hi.
  - intros [i Hi]. discriminate.
Qed.

Lemma inv_handleAnalyze (w : world) : inv w → inv (handleAnalyze w).
Proof.
  apply inv_frame; unfold handleAnalyze;
    destruct (String.eqb _ _); reflexivity.
Qed.

Lemma handleAnalyze_resume_frame (r : settled Analyze.data) (w : world) :
  let w' := handleAnalyze_resume r w in
  currentJobId (vars w') = currentJobId (vars w)
  ∧ progressInterval (vars w') = progressInterval (vars w)
  ∧ currentVideoData (vars w')
    = match r with
      | Fulfilled data =>
          if Analyze.success data then Some data else currentVideoData (vars w)
      | Rejected _ => currentVideoData (vars w)
      end
  ∧ env w' = env w.
Proof.
  unfold handleAnalyze_resume, displayVideoInfo.
  destruct r as [message|data]; [repeat split|].
  destruct (Analyze.success data); [|repeat split].
  destruct (Analyze.formats data) as [[|f fs]|]; repeat split.
Qed.

Lemma inv_handleAnalyze_resume (r : settled Analyze.data) (w : world) :
  inv w → inv (handleAnalyze_resume r w).
Proof.
  destruct (handleAnalyze_resume_frame r w) as (Hjob & Hint & _ & Henv).
  cbv zeta in *. apply inv_frame; by rewrite ?Henv.
Qed.

Lemma inv_handleDownload (w : world) : inv w → inv (handleDownload w).
Proof. apply inv_frame; reflexivity. Qed.

Lemma inv_handleDownload_resume (r : settled Download.data) (w : world) :
  inv w → inv (handleDownload_resume r w).
Proof.
  intros Hw. unfold handleDownload_resume.
  destruct r as [message|data]; [revert Hw; apply inv_frame; reflexivity|].
  destruct (Download.success data); cbn [andb];
    [|revert Hw; apply inv_frame; reflexivity].
  destruct (truthy (Download.job_id data)) eqn:Hid;
    [|revert Hw; apply inv_frame; reflexivity].
  apply inv_startProgressPolling; [exact Hid|].
  destruct Hw as (Ht & Hlt & _).
  split; [exact Ht|]. split; [exact Hlt|]. intros _. exact Hid.
Qed.

Lemma inv_progressTick (w : world) : inv w → inv (progressTick w).
Proof. apply inv_frame; reflexivity. Qed.

Lemma inv_progressTick_resume (r : settled Progress.data) (w : world) :
  inv w → inv (progressTick_resume r w).
Proof.
  intros Hw. unfold progressTick_resume.
  destruct r as [message|data]; [revert Hw; apply inv_frame; reflexivity|].
  assert (Hu : inv (updateProgress data w))
    by (revert Hw; apply inv_frame; reflexivity).
  apply inv_stopProgressPolling in Hu as Hs.
  repeat case_decide; [| |exact Hu]; revert Hs; apply inv_frame; reflexivity.
Qed.

Lemma inv_downloadLink_click (filename : string) (w : world) :
  inv w → inv (downloadLink_click filename w).
Proof. apply inv_frame; reflexivity. Qed.

Lemma inv_downloadLink_click_resume
    (filename : string) (r : settled File.response) (w : world) :
  inv w → inv (downloadLink_click_resume filename r w).
Proof.
  apply inv_frame; unfold downloadLink_click_resume;
    destruct r as [message|[[] [message|payload]]]; reflexivity.
Qed.

Lemma inv_step (w w' : world) (e : event) : inv w → step w e = Some w' → inv w'.
Proof.
  intros Hw. destruct e as [s|q| | | | | | |i|n r]; cbn [step].
  - intros [= <-]. revert Hw. apply inv_frame; reflexivity.
  - case_decide; [|done]. intros [= <-]. revert Hw. apply inv_frame; reflexivity.
  - destruct (analyzeBtn_disabled (dom w)); [done|].
    intros [= <-]. by apply inv_handleAnalyze.
  - intros [= <-]. by apply inv_handleAnalyze.
  - intros [= <-]. by apply inv_handleDownload.
  - intros [= <-]. by apply inv_resetApp.
  - intros [= <-]. by apply inv_resetApp.
  - destruct (downloadLink_onclick (dom w)) as [filename|]; [|done].
    intros [= <-]. by apply inv_downloadLink_click.
  - case_decide; [|done]. intros [= <-]. by apply inv_progressTick.
  - destruct (pending (env w) !! n) as [k|]; [|done].
    set (w0 := on_env _ w).
    assert (H0 : inv w0) by (revert Hw; apply inv_frame; reflexivity).
    destruct k, r; cbn [resume]; try done; intros [= <-].
    + by apply inv_handleAnalyze_resume.
    + by apply inv_handleDownload_resume.
    + by apply inv_progressTick_resume.
    + by apply inv_downloadLink_click_resume.
Qed.

Lemma inv_run (es : list event) (w w' : world) :
  inv w → run w es = Some w' → inv w'.
Proof.
  revert w. induction es as [|e es IH]; intros w Hw; cbn [run].
  - by intros [= <-].
  - destruct (step w e) as [w1|] eqn:He; [|done].
    apply IH. by eapply inv_step.
Qed.

Lemma inv_reachable (page : elements) (w : world) : reachable page w → inv w.
Proof. intros [es Hes]. eapply inv_run; [apply inv_init | exact Hes]. Qed.

(** ** One polling timer *)

(** C1, as the code has it: [handleDownload] does not stop the running loop
    when it is invoked -- the timers are the same after the call as before.
    The old timer is cancelled by [startProgressPolling], that is once the
    start request has succeeded with a job id: the table then holds the new
    timer and nothing that ran before.  Along every run at most one timer is
    active, the one [progressInterval] names, so two invocations in a row
    never leave two timers running. *)
Theorem one_polling_timer (page : elements) (w : world) :
  reachable page w →
  (size (timers (env w)) ≤ 1)%nat
  ∧ timers_tracked w
  ∧ timers (env (handleDownload w)) = timers (env w)
  ∧ ∀ data : Download.data,
      Download.success data = true →
      truthy (Download.job_id data) = true →
      let w' := handleDownload_resume (Fulfilled data) w in
      progressInterval (vars w') = Some (next_timer (env w))
      ∧ timers (env w') = {[next_timer (env w)]}
      ∧ ∀ i, i ∈ timers (env w) → i ∉ timers (env w').
Proof.
  intros Hw. apply inv_reachable in Hw as (Ht & Hlt & _).
  split; [|split; [exact Ht|split; [reflexivity|]]].
  - rewrite Ht. destruct (progressInterval (vars w)).
    + by rewrite size_singleton.
    + rewrite size_empty. lia.
  - intros data Hok Hid w'. subst w'. unfold handleDownload_resume.
    rewrite Hok, Hid. cbn [andb].
    set (w0 := on_vars _ w).
    destruct (startProgressPolling_timers w0 Ht) as (Hint & Htimers & _).
    split; [exact Hint|]. split; [exact Htimers|].
    intros i Hi. rewrite Htimers. apply Hlt in Hi.
    intros Hin. apply elem_of_singleton in Hin. subst i.
    change (next_timer (env w0)) with (next_timer (env w)) in Hi. lia.
Qed.

Lemma one_polling_timer_witness :
  let w' := handleDownload_resume (Fulfilled job_started) polling_world in
  (size (timers (env polling_world)) ≤ 1)%nat
  ∧ timers (env w') = {[2%positive]}.
Proof.
  intros w'.
  destruct (one_polling_timer blank_page polling_world polling_world_reachable)
    as (Hsize & _ & _ & Hstart).
  split; [exact Hsize|].
  exact (proj1 (proj2 (Hstart job_started eq_refl eq_refl))).
Defined.

(** While the loop runs, a second URL is analyzed and its download is
    started: the old timer is still active once the start request is out,
    and it is still active, and can elapse, after the server has refused
    the download. *)
Lemma handleDownload_keeps_old_timer :
  timers (env polling_world) = {[1%positive]}
  ∧ ∃ w1 w2,
      run polling_world
        [ UrlTyped "https://example.org/watch?v=2";
          EnterPressed;
          Settled 0 (AnalyzeResponse (Fulfilled sample_video));
          DownloadClicked ]
      = Some w1
      ∧ phase w1 = Some Downloading
      ∧ timers (env w1) = {[1%positive]}
      ∧ step w1 (Settled 0 (DownloadResponse (Fulfilled start_refused))) = Some w2
      ∧ phase w2 = Some Failed
      ∧ timers (env w2) = {[1%positive]}
      ∧ is_Some (step w2 (IntervalElapsed 1)).
Proof.
  split; [exact (proj1 (proj2 (proj2 (proj2 polling_world_state))))|].
  eexists _, _. split; [vm_compute; reflexivity|].
  split; [vm_compute; reflexivity|].
  split; [vm_compute; reflexivity|].
  split; [vm_compute; reflexivity|].
  split; [vm_compute; reflexivity|].
  split; [vm_compute; reflexivity|].
  vm_compute. eexists. reflexivity.
Qed.

(** ** Ticks and the job handle *)





(** ** Where the metadata is cleared *)

(** C3, as the code has it: [resetApp], the handler of both the reset and
    the retry button, clears the stored metadata and the job handle.
    [handleAnalyze] clears neither, on any input: it assigns to no
    variable.  The metadata is replaced when the response comes with
    [success] true and is kept otherwise; the job handle is not changed by
    an analyze call at all. *)
Theorem metadata_cleared_by_reset (w : world) :
  currentVideoData (vars (resetApp w)) = None
  ∧ currentJobId (vars (resetApp w)) = None
  ∧ vars (handleAnalyze w) = vars w
  ∧ ∀ r : settled Analyze.data,
      let w' := handleAnalyze_resume r w in
      currentJobId (vars w') = currentJobId (vars w)
      ∧ currentVideoData (vars w')
        = match r with
          | Fulfilled data =>
              if Analyze.success data then Some data
              else currentVideoData (vars w)
          | Rejected _ => currentVideoData (vars w)
          end.
Proof.
  split; [reflexivity|]. split; [reflexivity|]. split.
  - unfold handleAnalyze. destruct (String.eqb _ _); reflexivity.
  - intros r.
    destruct (handleAnalyze_resume_frame r w) as (Hjob & _ & Hdata & _).
    split; [exact Hjob | exact Hdata].
Qed.

(** A second video is analyzed while the first one's metadata and job are
    stored: both are still there when the request goes out, and still there
    after the server has refused the new URL. *)
Lemma handleAnalyze_keeps_metadata :
  ∃ w1 w2,
    run polling_world [ UrlTyped "https://example.org/watch?v=2"; EnterPressed ]
    = Some w1
    ∧ requests (env w1)
      = (requests (env polling_world)
         ++ [ {| path := "/api/analyze"; method := POST; headers := json_headers;
                 body := Some (AnalyzeBody "https://example.org/watch?v=2") |} ])%list
    ∧ currentVideoData (vars w1) = Some sample_video
    ∧ currentJobId (vars w1) = Some "job-1"
    ∧ step w1 (Settled 0 (AnalyzeResponse (Fulfilled analyze_refused))) = Some w2
    ∧ currentVideoData (vars w2) = Some sample_video
    ∧ currentJobId (vars w2) = Some "job-1".
Proof.
  eexists _, _.
  split; [vm_compute; reflexivity|].
  split; [vm_compute; reflexivity|].
  split; [vm_compute; reflexivity|].
  split; [vm_compute; reflexivity|].
  split; [vm_compute; reflexivity|].
  split; vm_compute; reflexivity.
Qed.

(** * Further properties *)

(** ** Stopping and resetting *)

(** X1: [stopProgressPolling] may be called at any time.  With no timer
    recorded it changes nothing at all, and a second call right after a
    first changes nothing either. *)
Theorem stopProgressPolling_safe (w : world) :
  stopProgressPolling (stopProgressPolling w) = stopProgressPolling w
  ∧ (progressInterval (vars w) = None → stopProgressPolling w = w)
  ∧ requests (env (stopProgressPolling w)) = requests (env w)
  ∧ dom (stopProgressPolling w) = dom w.
Proof.
  unfold stopProgressPolling.
  destruct (progressInterval (vars w)) eqn:Hi; cbn; rewrite ?Hi; repeat split.
  discriminate.
Qed.

(** X2: [resetApp], from any world the page can be in, leaves no variable
    set and no timer active -- no interval can elapse afterwards --, hides
    every section, empties the URL field and puts the progress display back
    to zero.  It calls no [fetch], and it does not cancel a request that is
    in flight: the functions awaiting a response are the same as before. *)
Theorem resetApp_from_anywhere (page : elements) (w : world) :
  reachable page w →
  let w' := resetApp w in
  vars w' = {| currentVideoData := None; currentJobId := None;
               progressInterval := None |}
  ∧ timers (env w') = ∅
  ∧ (∀ i, step w' (IntervalElapsed i) = None)
  ∧ visible_sections (dom w') = []
  ∧ urlInput_value (dom w') = ""
  ∧ progressPercent_text (dom w') = "0%"
  ∧ progressFill_width (dom w') = "0%"
  ∧ requests (env w') = requests (env w)
  ∧ pending (env w') = pending (env w).
Proof.
  intros Hw w'. subst w'. apply inv_reachable in Hw as (Ht & _ & _).
  destruct (resetApp_clears w Ht)
    as (Hdata & Hjob & Hint & Htimers & _ & Hurl & Hpct & Hfill & Hreq).
  destruct (stopProgressPolling_frame w) as (_ & _ & _ & _ & _ & Hpend & _).
  split.
  { destruct (vars (resetApp w)) as [d j t] eqn:E. cbn in Hdata, Hjob, Hint.
    by rewrite Hdata, Hjob, Hint. }
  split; [exact Htimers|]. split.
  { intros i. unfold step. rewrite Htimers.
    rewrite decide_False; [reflexivity|]. apply not_elem_of_empty. }
  split; [reflexivity|].
  split; [exact Hurl|]. split; [exact Hpct|]. split; [exact Hfill|].
  split; [exact Hreq | exact Hpend].
Qed.

Lemma resetApp_from_anywhere_witness :
  timers (env polling_world) = {[1%positive]}
  ∧ timers (env (resetApp polling_world)) = ∅
  ∧ step (resetApp polling_world) (IntervalElapsed 1) = None.
Proof.
  destruct (resetApp_from_anywhere blank_page polling_world polling_world_reachable)
    as (_ & Htimers & Hstep & _).
  split; [exact (proj1 (proj2 (proj2 (proj2 polling_world_state))))|].
  split; [exact Htimers | exact (Hstep 1%positive)].
Defined.

(** ** Analyze: errors and the loading flag *)

(** X3: an analyze response that does not report success, and an analyze
    request that fails, both end with the error section alone on the page.
    The message is the server's [error] when there is one,
    ["Video analiz edilemedi"] when there is none, and
    ["Bağlantı hatası: "] followed by the text of the exception when the
    request or the parsing failed.  The variables keep their values and no
    request follows. *)
Theorem handleAnalyze_resume_error (r : settled Analyze.data) (w : world) :
  match r with
  | Fulfilled data => Analyze.success data = false
  | Rejected _ => True
  end →
  let w' := handleAnalyze_resume r w in
  phase w' = Some Failed
  ∧ errorMessage_text (dom w')
    = match r with
      | Fulfilled data => or_default (Analyze.error data) "Video analiz edilemedi"
      | Rejected message => "Bağlantı hatası: " ++ message
      end
  ∧ analyzeBtn_disabled (dom w') = false
  ∧ vars w' = vars w
  ∧ env w' = env w.
Proof.
  intros Hr. unfold handleAnalyze_resume.
  destruct r as [message|data]; [|rewrite Hr]; repeat split.
Qed.

Lemma handleAnalyze_resume_error_witness :
  let w' := handleAnalyze_resume (Fulfilled analyze_refused) polling_world in
  phase w' = Some Failed
  ∧ errorMessage_text (dom w') = "Unsupported URL".
Proof.
  intros w'.
  destruct (handleAnalyze_resume_error (Fulfilled analyze_refused) polling_world
              eq_refl) as (Hphase & Hmsg & _).
  split; [exact Hphase | exact Hmsg].
Defined.



(** ** Starting a download: the URL sent, and refusals *)

(** X5: the URL that [handleDownload] sends is the [webpage_url] of the
    stored metadata whenever there is one that is not empty, whatever the
    URL field holds by then; without one it is the URL field, trimmed. *)
Theorem handleDownload_url (data : Analyze.data) (w : world) :
  currentVideoData (vars w) = Some data →
  let sent url :=
    requests (env (handleDownload w))
    = (requests (env w)
       ++ [ {| path := "/api/download"; method := POST; headers := json_headers;
               body := Some (DownloadBody url (qualitySelect_value (dom w))
                               None None) |} ])%list in
  (∀ u, Analyze.webpage_url data = Some u → u ≠ "" → sent u)
  ∧ (Analyze.webpage_url data = None → sent (trim (urlInput_value (dom w))))
  ∧ (Analyze.webpage_url data = Some "" → sent (trim (urlInput_value (dom w)))).
Proof.
  intros Hdata sent. subst sent. cbv beta. unfold handleDownload. rewrite Hdata.
  split; [|split].
  - intros u -> Hu. cbn [truthy template].
    destruct (String.eqb_spec u ""); [done|]. reflexivity.
  - intros ->. reflexivity.
  - intros ->. reflexivity.
Qed.

Lemma handleDownload_url_witness :
  let w := on_dom (set_urlInput_value "something else") ready_world in
  requests (env (handleDownload w))
  = (requests (env w)
     ++ [ {| path := "/api/download"; method := POST; headers := json_headers;
             body := Some (DownloadBody "https://example.org/watch?v=1" "best"
                             None None) |} ])%list.
Proof.
  intros w.
  assert (Hdata : currentVideoData (vars w) = Some sample_video)
    by (vm_compute; reflexivity).
  destruct (handleDownload_url sample_video w Hdata) as (Hsent & _).
  apply (Hsent "https://example.org/watch?v=1" eq_refl). by vm_compute.
Defined.

(** X6: a download-start response without [success], or with [success] but
    without a job id (missing or empty), and a start request that fails, all
    end with the error section alone on the page, showing the server's
    [error], ["İndirme başlatılamadı"] when there is none, or
    ["Bağlantı hatası: "] with the text of the exception.  No job handle is
    stored and no timer is started: variables and browser side are as
    before. *)
Theorem handleDownload_resume_error (r : settled Download.data) (w : world) :
  match r with
  | Fulfilled data =>
      Download.success data = false ∨ truthy (Download.job_id data) = false
  | Rejected _ => True
  end →
  let w' := handleDownload_resume r w in
  phase w' = Some Failed
  ∧ errorMessage_text (dom w')
    = match r with
      | Fulfilled data => or_default (Download.error data) "İndirme başlatılamadı"
      | Rejected message => "Bağlantı hatası: " ++ message
      end
  ∧ vars w' = vars w
  ∧ env w' = env w.
Proof.
  intros Hr. unfold handleDownload_resume.
  destruct r as [message|data]; [repeat split|].
  assert (Hcond : Download.success data && truthy (Download.job_id data) = false).
  { destruct Hr as [-> | ->]; [reflexivity | apply andb_false_r]. }
  rewrite Hcond. repeat split.
Qed.

Lemma handleDownload_resume_error_witness :
  let no_job := {| Download.success := true; Download.job_id := Some "";
                   Download.error := None |} in
  let w' := handleDownload_resume (Fulfilled no_job) (handleDownload ready_world) in
  phase w' = Some Failed
  ∧ errorMessage_text (dom w') = "İndirme başlatılamadı"
  ∧ timers (env w') = ∅.
Proof.
  intros no_job w'.
  destruct (handleDownload_resume_error (Fulfilled no_job)
              (handleDownload ready_world) (or_intror eq_refl))
    as (Hphase & Hmsg & _ & Henv).
  split; [exact Hphase|]. split; [exact Hmsg|].
  subst w'. rewrite Henv. vm_compute. reflexivity.
Defined.

(** ** The progress display *)




(** The labels next to the bar: the reported speed and remaining time, or
    their placeholders. *)
Lemma updateProgress_labels (data : Progress.data) (w : world) :
  progressSpeed_text (dom (updateProgress data w))
  = or_default (Progress.speed data) "-- MB/s"
  ∧ progressEta_text (dom (updateProgress data w))
    = "Kalan: " ++ or_default (Progress.eta data) "--".
Proof.
  split; [reflexivity|].
  change (progressEta_text (dom (updateProgress data w)))
    with (if truthy (Progress.eta data)
          then "Kalan: " ++ template (Progress.eta data) else "Kalan: --").
  destruct (Progress.eta data) as [s|]; [|reflexivity].
  cbn [truthy template or_default]. by destruct (String.eqb s "").
Qed.

(** ** The quality menu *)

(** X8: the list of formats in an analyze response never reaches the page.
    Two responses that differ in their [formats] only, both with at least
    one format, leave the same page; the drop-down then offers the six
    fixed options.  Without formats, or with an empty list, the drop-down is
    not touched. *)
Theorem formats_not_rendered
    (data : Analyze.data) (fs1 fs2 : list FormatOption) (w : world) :
  let with_formats fs :=
    {| Analyze.success := Analyze.success data; Analyze.title := Analyze.title data;
       Analyze.uploader := Analyze.uploader data;
       Analyze.duration_string := Analyze.duration_string data;
       Analyze.thumbnail := Analyze.thumbnail data;
       Analyze.webpage_url := Analyze.webpage_url data;
       Analyze.formats := fs; Analyze.error := Analyze.error data |} in
  fs1 ≠ [] → fs2 ≠ [] →
  displayVideoInfo (with_formats (Some fs1)) w
  = displayVideoInfo (with_formats (Some fs2)) w
  ∧ qualitySelect_options (dom (displayVideoInfo (with_formats (Some fs1)) w))
    = defaultOptions
  ∧ qualitySelect_options (dom (displayVideoInfo (with_formats None) w))
    = qualitySelect_options (dom w)
  ∧ qualitySelect_value (dom (displayVideoInfo (with_formats None) w))
    = qualitySelect_value (dom w)
  ∧ displayVideoInfo (with_formats (Some [])) w
    = displayVideoInfo (with_formats None) w.
Proof.
  intros with_formats H1 H2. subst with_formats. cbv beta.
  destruct fs1 as [|f1 fs1]; [done|]. destruct fs2 as [|f2 fs2]; [done|].
  repeat split.
Qed.

Lemma formats_not_rendered_witness :
  let one := [ {| qualityLabel := "4K"; selectorValue := "2160p" |} ] in
  let two := [ {| qualityLabel := "144p"; selectorValue := "144p" |};
               {| qualityLabel := "240p"; selectorValue := "240p" |} ] in
  qualitySelect_options
    (dom (displayVideoInfo
            {| Analyze.success := true; Analyze.title := Analyze.title sample_video;
               Analyze.uploader := Analyze.uploader sample_video;
               Analyze.duration_string := Analyze.duration_string sample_video;
               Analyze.thumbnail := Analyze.thumbnail sample_video;
               Analyze.webpage_url := Analyze.webpage_url sample_video;
               Analyze.formats := Some one;
               Analyze.error := Analyze.error sample_video |}
            (init blank_page)))
  = defaultOptions.
Proof.
  intros one two.
  assert (H1 : one ≠ []) by discriminate.
  assert (H2 : two ≠ []) by discriminate.
  exact (proj1 (proj2 (formats_not_rendered sample_video one two
                         (init blank_page) H1 H2))).
Defined.

(** ** Requests along a run *)


(** A function that resumes calls no [fetch], and suspends no more. *)
Lemma resume_frame (k : continuation) (r : response) (w w' : world) :
  resume k r w = Some w' →
  requests (env w') = requests (env w) ∧ pending (env w') = pending (env w).
Proof.
  destruct k, r as [r|r|r|r]; cbn [resume]; try done; intros [= <-].
  - destruct (handleAnalyze_resume_frame r w) as (_ & _ & _ & Henv).
    cbv zeta in Henv. by rewrite Henv.
  - unfold handleDownload_resume. destruct r as [message|data]; [done|].
    destruct (Download.success data && truthy (Download.job_id data)); [|done].
    unfold startProgressPolling. cbn [on_vars vars set_currentJobId progressInterval].
    destruct (progressInterval (vars w)); done.
  - unfold progressTick_resume. destruct r as [message|data]; [done|].
    destruct (stopProgressPolling_frame (updateProgress data w))
      as (_ & _ & _ & _ & Hreq & Hpend & _).
    repeat case_decide; [by split | by split | done].
  - unfold downloadLink_click_resume.
    destruct r as [message|[[] [message|payload]]]; done.
Qed.





(** X10: a response never makes the page send a request of its own accord:
    whatever settles, and however, the requests sent are the same after it
    is handled as before.  A refused analysis, a refused or failed start, a
    failed download and a failed retrieval are not tried again. *)
Theorem response_sends_nothing (n : nat) (r : response) (w w' : world) :
  step w (Settled n r) = Some w' →
  requests (env w') = requests (env w)
  ∧ length (pending (env w')) = pred (length (pending (env w))).
Proof.
  cbn [step]. destruct (pending (env w) !! n) as [k|] eqn:Hk; [|done].
  intros Hres. apply resume_frame in Hres as [Hreq Hpend].
  split; [exact Hreq|].
  rewrite Hpend.
  change (length (delete n (pending (env w))) = pred (length (pending (env w)))).
  rewrite length_delete by (by eexists). lia.
Qed.

Lemma response_sends_nothing_witness :
  ∃ w',
    step (handleDownload ready_world)
      (Settled 0 (DownloadResponse (Fulfilled start_refused))) = Some w'
    ∧ requests (env w') = requests (env (handleDownload ready_world)).
Proof.
  eexists. split; [vm_compute; reflexivity|].
  refine (proj1 (response_sends_nothing 0
                   (DownloadResponse (Fulfilled start_refused))
                   (handleDownload ready_world) _ _)).
  vm_compute. reflexivity.
Defined.

(** ** Ticks that overlap *)

(** X11: the callback does not wait for the response to the previous poll.
    While the timer is active, [n] ticks in a row with no response in
    between send [n] progress requests for the same job and leave [n]
    functions awaiting a response; variables and page are untouched. *)
Theorem ticks_do_not_wait (n : nat) (i : positive) (w : world) :
  i ∈ timers (env w) →
  ∃ w',
    run w (replicate n (IntervalElapsed i)) = Some w'
    ∧ requests (env w')
      = (requests (env w)
         ++ replicate n (progress_request (currentJobId (vars w))))%list
    ∧ pending (env w') = (pending (env w) ++ replicate n ProgressK)%list
    ∧ vars w' = vars w
    ∧ dom w' = dom w
    ∧ timers (env w') = timers (env w).
Proof.
  revert w. induction n as [|n IH]; intros w Hi.
  - exists w. cbn [replicate run]. rewrite !app_nil_r. done.
  - cbn [replicate run]. unfold step at 1. rewrite decide_True by exact Hi.
    destruct (IH (progressTick w) Hi) as (w' & Hrun & Hreq & Hpend & Hv & Hd & Ht).
    exists w'. split; [exact Hrun|].
    rewrite Hreq, Hpend, Hv, Hd, Ht.
    repeat split; cbn; by rewrite <- app_assoc.
Qed.

Lemma ticks_do_not_wait_witness :
  ∃ w',
    run polling_world (replicate 3 (IntervalElapsed 1)) = Some w'
    ∧ pending (env w') = [ProgressK; ProgressK; ProgressK].
Proof.
  assert (Hi : 1%positive ∈ timers (env polling_world)).
  { rewrite (proj1 (proj2 (proj2 (proj2 polling_world_state)))).
    by apply elem_of_singleton. }
  destruct (ticks_do_not_wait 3 1 polling_world Hi)
    as (w' & Hrun & _ & Hpend & _).
  exists w'. split; [exact Hrun|].
  rewrite Hpend, (proj2 (proj2 (proj2 (proj2 polling_world_state)))).
  reflexivity.
Defined.

(** ** Where a timer can come from *)

(** X14: the one event that can start a timer is a download-start response
    that reports success with a job id.  Any other event leaves the set of
    active timers as it was or makes it smaller. *)
Theorem timer_started_by_start_only (e : event) (w w' : world) :
  step w e = Some w' →
  timers (env w') ⊆ timers (env w)
  ∨ ∃ n data,
      e = Settled n (DownloadResponse (Fulfilled data))
      ∧ Download.success data = true
      ∧ truthy (Download.job_id data) = true.
Proof.
  assert (Hstop : ∀ w0, timers (env (stopProgressPolling w0)) ⊆ timers (env w0)).
  { intros w0. unfold stopProgressPolling.
    destruct (progressInterval (vars w0)); [|done].
    cbn. apply subseteq_difference_l. done. }
  destruct e as [s|q| | | | | | |i|n r]; cbn [step].
  - intros [= <-]. by left.
  - case_decide; [|done]. intros [= <-]. by left.
  - destruct (analyzeBtn_disabled (dom w)); [done|]. intros [= <-]. left.
    unfold handleAnalyze. by destruct (String.eqb _ _).
  - intros [= <-]. left. unfold handleAnalyze. by destruct (String.eqb _ _).
  - intros [= <-]. by left.
  - intros [= <-]. left. apply (Hstop w).
  - intros [= <-]. left. apply (Hstop w).
  - destruct (downloadLink_onclick (dom w)); [|done]. intros [= <-]. by left.
  - case_decide; [|done]. intros [= <-]. by left.
  - destruct (pending (env w) !! n) as [k|]; [|done].
    set (w0 := on_env _ w).
    assert (H0 : timers (env w0) = timers (env w)) by reflexivity.
    rewrite <- H0.
    destruct k, r as [r|r|r|r]; cbn [resume]; try done; intros [= <-].
    + left. destruct (handleAnalyze_resume_frame r w0) as (_ & _ & _ & Henv).
      cbv zeta in Henv. by rewrite Henv.
    + unfold handleDownload_resume. destruct r as [message|data]; [by left|].
      destruct (Download.success data) eqn:Hok; cbn [andb]; [|by left].
      destruct (truthy (Download.job_id data)) eqn:Hid; [|by left].
      right. by exists n, data.
    + left. unfold progressTick_resume. destruct r as [message|data]; [done|].
      pose proof (Hstop (updateProgress data w0)) as Hs.
      repeat case_decide; [exact Hs | exact Hs | done].
    + left. unfold downloadLink_click_resume.
      by destruct r as [message|[[] [message|payload]]].
Qed.

Lemma timer_started_by_start_only_witness :
  timers (env (handleDownload ready_world)) ⊆ timers (env ready_world).
Proof.
  destruct (timer_started_by_start_only DownloadClicked ready_world
              (handleDownload ready_world) eq_refl) as [Hsub | (n & data & He & _)].
  - exact Hsub.
  - discriminate He.
Defined.

(** ** File names *)

Lemma or_default_nonempty (x : option string) (d : string) :
  d ≠ "" → or_default x d ≠ "".
Proof.
  intros Hd. destruct x as [s|]; [|exact Hd]. simpl.
  by destruct (String.eqb_spec s "").
Qed.

(** [names_ok] looks at the link, at the suspended functions and at the
    saved files only. *)
Lemma names_ok_frame (w w' : world) :
  downloadLink_onclick (dom w') = downloadLink_onclick (dom w) →
  pending (env w') = pending (env w) →
  saved (env w') = saved (env w) →
  names_ok w → names_ok w'.
Proof. unfold names_ok. intros -> -> ->. done. Qed.

Lemma names_ok_fetch (req : request) (k : continuation) (w : world) :
  named k → names_ok w → names_ok (fetch req k w).
Proof.
  intros Hk (Hlink & Hpend & Hsaved). split; [exact Hlink|]. split; [|exact Hsaved].
  change (Forall named (pending (env w) ++ [k])).
  apply Forall_app. split; [exact Hpend | by apply Forall_singleton].
Qed.

Lemma names_ok_step (e : event) (w w' : world) :
  names_ok w → step w e = Some w' → names_ok w'.
Proof.
  intros Hw.
  assert (Han : names_ok (handleAnalyze w)).
  { unfold handleAnalyze. destruct (String.eqb _ _).
    - revert Hw. apply names_ok_frame; reflexivity.
    - apply names_ok_fetch; [exact I|].
      revert Hw. apply names_ok_frame; reflexivity. }
  destruct e as [s|q| | | | | | |i|n r]; cbn [step].
  - intros [= <-]. revert Hw. apply names_ok_frame; reflexivity.
  - case_decide; [|done]. intros [= <-]. revert Hw.
    apply names_ok_frame; reflexivity.
  - destruct (analyzeBtn_disabled (dom w)); [done|]. by intros [= <-].
  - by intros [= <-].
  - intros [= <-]. apply names_ok_fetch; [exact I|].
    revert Hw. apply names_ok_frame; reflexivity.
  - intros [= <-]. revert Hw.
    destruct (stopProgressPolling_frame w) as (Hdom & _ & _ & _ & _ & Hp & _ & Hs).
    apply names_ok_frame; [|exact Hp | exact Hs].
    change (downloadLink_onclick (dom (resetApp w)))
      with (downloadLink_onclick (dom (stopProgressPolling w))).
    cbv zeta in Hdom. by rewrite Hdom.
  - intros [= <-]. revert Hw.
    destruct (stopProgressPolling_frame w) as (Hdom & _ & _ & _ & _ & Hp & _ & Hs).
    apply names_ok_frame; [|exact Hp | exact Hs].
    change (downloadLink_onclick (dom (resetApp w)))
      with (downloadLink_onclick (dom (stopProgressPolling w))).
    cbv zeta in Hdom. by rewrite Hdom.
  - destruct (downloadLink_onclick (dom w)) as [filename|] eqn:Hlink; [|done].
    intros [= <-]. apply names_ok_fetch; [|exact Hw].
    destruct Hw as (Hl & _). by apply Hl.
  - case_decide; [|done]. intros [= <-]. by apply names_ok_fetch.
  - destruct (pending (env w) !! n) as [k|] eqn:Hk; [|done].
    set (w0 := on_env _ w).
    assert (Hnamed : named k).
    { destruct Hw as (_ & Hp & _).
      by apply (proj1 (Forall_lookup _ _) Hp n k). }
    assert (H0 : names_ok w0).
    { destruct Hw as (Hl & Hp & Hs). split; [exact Hl|]. split; [|exact Hs].
      change (Forall named (delete n (pending (env w)))).
      by apply Forall_delete. }
    destruct k, r as [r|r|r|r]; cbn [resume]; try done; intros [= <-].
    + revert H0.
      destruct (handleAnalyze_resume_frame r w0) as (_ & _ & _ & Henv).
      cbv zeta in Henv.
      apply names_ok_frame; [|by rewrite Henv | by rewrite Henv].
      unfold handleAnalyze_resume, displayVideoInfo.
      destruct r as [message|data]; [reflexivity|].
      destruct (Analyze.success data); [|reflexivity].
      destruct (Analyze.formats data) as [[|f fs]|]; reflexivity.
    + revert H0. unfold handleDownload_resume.
      destruct r as [message|data]; [apply names_ok_frame; reflexivity|].
      destruct (Download.success data && truthy (Download.job_id data));
        [|apply names_ok_frame; reflexivity].
      unfold startProgressPolling.
      cbn [on_vars vars set_currentJobId progressInterval].
      destruct (progressInterval (vars w0)); apply names_ok_frame; reflexivity.
    + unfold progressTick_resume. destruct r as [message|data];
        [revert H0; apply names_ok_frame; reflexivity|].
      set (w1 := updateProgress data w0).
      assert (H1 : names_ok w1) by (revert H0; apply names_ok_frame; reflexivity).
      destruct (stopProgressPolling_frame w1)
        as (Hdom & _ & _ & _ & _ & Hp & _ & Hs).
      cbv zeta in Hdom.
      assert (H2 : names_ok (stopProgressPolling w1)).
      { revert H1. apply names_ok_frame; [by rewrite Hdom | exact Hp | exact Hs]. }
      repeat case_decide; [| |exact H1].
      * destruct H2 as (_ & Hp2 & Hs2). split; [|split; [exact Hp2 | exact Hs2]].
        intros f [= <-]. by apply or_default_nonempty.
      * revert H2. apply names_ok_frame; reflexivity.
    + unfold downloadLink_click_resume.
      destruct r as [message|[[] [message|payload]]];
        try (revert H0; apply names_ok_frame; reflexivity).
      destruct H0 as (Hl & Hp & Hs). split; [exact Hl|]. split; [exact Hp|].
      change (Forall (λ p : string * Blob, p.1 ≠ "")
                (saved (env w0) ++ [(filename, payload)])).
      apply Forall_app. split; [exact Hs | by apply Forall_singleton].
Qed.

(** X12: no file is ever saved under an empty name.  On a page whose link
    has no handler to begin with, the name bound to the link, the name a
    retrieval in flight has captured and the name of every saved file are
    not empty, along every run: a [completed] response without a usable
    [filename] binds ["video.mp4"]. *)
Theorem saved_names_nonempty (page : elements) (w : world) :
  downloadLink_onclick page = None →
  reachable page w →
  Forall (λ p : string * Blob, p.1 ≠ "") (saved (env w))
  ∧ Forall named (pending (env w))
  ∧ ∀ f, downloadLink_onclick (dom w) = Some f → f ≠ "".
Proof.
  intros Hpage [es Hes].
  assert (Hgen : ∀ w0, names_ok w0 → run w0 es = Some w → names_ok w).
  { clear Hes. induction es as [|e es IH]; intros w0 H0; cbn [run].
    - by intros [= <-].
    - destruct (step w0 e) as [w1|] eqn:He; [|done].
      apply IH. by eapply names_ok_step. }
  assert (Hinit : names_ok (init page)).
  { split; [|split; apply Forall_nil; exact I].
    intros f. cbn. rewrite Hpage. discriminate. }
  destruct (Hgen (init page) Hinit Hes) as (Hl & Hp & Hs). done.
Qed.

Lemma saved_names_nonempty_witness :
  saved (env saved_world) = [("x.mp4", [Byte.x00])]
  ∧ Forall (λ p : string * Blob, p.1 ≠ "") (saved (env saved_world)).
Proof.
  split; [vm_compute; reflexivity|].
  assert (Hreach : reachable blank_page saved_world).
  { exists saved_events. vm_compute. reflexivity. }
  exact (proj1 (saved_names_nonempty blank_page saved_world eq_refl Hreach)).
Defined.

(** ** The link after a reset *)

(** X13: [resetApp] hides the completed section but leaves the handler on
    the link.  Were the link clicked after a reset, the handler would ask
    for the file of the job ["null"], the job handle being read when the
    link is clicked. *)
Theorem link_survives_reset (filename : string) (w : world) :
  downloadLink_onclick (dom w) = Some filename →
  downloadLink_onclick (dom (resetApp w)) = Some filename
  ∧ ∃ w',
      step (resetApp w) DownloadLinkClicked = Some w'
      ∧ requests (env w')
        = (requests (env w)
           ++ [ {| path := "/api/file/null"; method := GET;
                   headers := key_header; body := None |} ])%list
      ∧ pending (env w') = (pending (env w) ++ [FileK filename])%list.
Proof.
  intros Hlink.
  destruct (stopProgressPolling_frame w) as (Hdom & _ & _ & _ & Hreq & Hp & _).
  cbv zeta in Hdom.
  assert (Hlink' : downloadLink_onclick (dom (resetApp w)) = Some filename).
  { change (downloadLink_onclick (dom (stopProgressPolling w)) = Some filename).
    by rewrite Hdom. }
  split; [exact Hlink'|].
  eexists. split; [cbn [step]; rewrite Hlink'; reflexivity|].
  split.
  - change ((requests (env (stopProgressPolling w))
             ++ [file_request None])%list
            = (requests (env w) ++ [file_request None])%list).
    by rewrite Hreq.
  - change ((pending (env (stopProgressPolling w)) ++ [FileK filename])%list
            = (pending (env w) ++ [FileK filename])%list).
    by rewrite Hp.
Qed.

Lemma link_survives_reset_witness :
  downloadLink_onclick (dom (resetApp completed_world)) = Some "x.mp4".
Proof.
  exact (proj1 (link_survives_reset "x.mp4" completed_world eq_refl)).
Defined.

(** ** The loop, round after round *)

Lemma run_app (es1 es2 : list event) (w w1 : world) :
  run w es1 = Some w1 → run w (es1 ++ es2) = run w1 es2.
Proof.
  revert w. induction es1 as [|e es1 IH]; intros w; cbn [run app].
  - by intros [= <-].
  - destruct (step w e) as [w0|]; [apply IH | done].
Qed.

(** One round from a world in which timer [i] is active. *)
Lemma poll_round_run (i : positive) (data : Progress.data) (w : world) :
  i ∈ timers (env w) →
  run w (poll_round i (length (pending (env w))) data)
  = Some (progressTick_resume (Fulfilled data)
            (send (progress_request (currentJobId (vars w))) w)).
Proof.
  intros Hi. unfold poll_round. cbn [run]. unfold step at 1.
  rewrite decide_True by exact Hi.
  unfold progressTick. rewrite step_settle_fetch. reflexivity.
Qed.

(** X15: polls answered one by one.  From a world in which the loop runs,
    any number of responses whose status is neither [completed] nor
    [failed], followed by one that is [completed], end with the completed
    section alone on the page, under the file name of the last response (or
    ["video.mp4"]), with the timer cancelled and forgotten -- no interval can
    elapse any more.  One progress request was sent per response, and the
    job handle is still the same. *)
Theorem polls_until_completed
    (i : positive) (ds : list Progress.data) (last : Progress.data) (w : world) :
  progressInterval (vars w) = Some i →
  timers (env w) = {[i]} →
  Forall in_progress ds →
  Progress.status last = Some "completed" →
  ∃ w',
    run w (poll_rounds i (length (pending (env w))) (ds ++ [last])) = Some w'
    ∧ phase w' = Some Completed
    ∧ downloadFilename_text (dom w')
      = or_default (Progress.filename last) "video.mp4"
    ∧ progressInterval (vars w') = None
    ∧ timers (env w') = ∅
    ∧ (∀ j, step w' (IntervalElapsed j) = None)
    ∧ currentJobId (vars w') = currentJobId (vars w)
    ∧ requests (env w')
      = (requests (env w)
         ++ replicate (S (length ds))
              (progress_request (currentJobId (vars w))))%list
    ∧ pending (env w') = pending (env w).
Proof.
  intros Hint Htimers Hds Hlast. revert w Hint Htimers.
  induction Hds as [|d ds [Hc Hf] _ IH]; intros w Hint Htimers.
  - assert (Hi : i ∈ timers (env w)) by (rewrite Htimers; by apply elem_of_singleton).
    unfold poll_rounds. cbn [app fmap list_fmap concat]. rewrite app_nil_r.
    rewrite (poll_round_run i last w Hi).
    set (w0 := send _ w).
    eexists. split; [reflexivity|].
    unfold progressTick_resume. rewrite decide_True by exact Hlast.
    set (w1 := updateProgress last w0).
    assert (Ht : timers_tracked w1).
    { unfold timers_tracked.
      change (timers (env w) = match progressInterval (vars w) with
                               | Some k => {[k]} | None => ∅ end).
      by rewrite Hint, Htimers. }
    destruct (stopProgressPolling_stops w1 Ht) as [Hnone Hempty].
    destruct (stopProgressPolling_frame w1)
      as (_ & _ & Hjob & _ & Hreq & Hpend & _).
    destruct (showComplete_shows last (stopProgressPolling w1))
      as (Hphase & Hname & _ & Hvars & Henv).
    cbv zeta in Hvars, Henv, Hname, Hphase.
    rewrite Hvars, Henv, Hname, Hnone, Hempty, Hjob, Hreq, Hpend.
    split; [exact Hphase|]. split; [reflexivity|]. split; [reflexivity|].
    split; [reflexivity|]. split.
    { intros j. unfold step. rewrite Henv, Hempty.
      rewrite decide_False; [reflexivity | apply not_elem_of_empty]. }
    repeat split.
  - assert (Hi : i ∈ timers (env w)) by (rewrite Htimers; by apply elem_of_singleton).
    unfold poll_rounds. cbn [app fmap list_fmap concat].
    rewrite (run_app _ _ _ _ (poll_round_run i d w Hi)).
    set (w0 := send _ w).
    unfold progressTick_resume. rewrite !decide_False by done.
    set (w1 := updateProgress d w0).
    destruct (IH w1) as (w' & Hrun & Hphase & Hname & Hnone & Hempty & Hstep
                         & Hjob & Hreq & Hpend); [exact Hint | exact Htimers |].
    exists w'. split; [exact Hrun|].
    split; [exact Hphase|]. split; [exact Hname|]. split; [exact Hnone|].
    split; [exact Hempty|]. split; [exact Hstep|]. split; [exact Hjob|].
    split; [|exact Hpend].
    rewrite Hreq.
    change (((requests (env w) ++ [progress_request (currentJobId (vars w))])
             ++ replicate (S (length ds))
                  (progress_request (currentJobId (vars w))))%list
            = (requests (env w)
               ++ replicate (S (length (d :: ds)))
                    (progress_request (currentJobId (vars w))))%list).
    by rewrite <- app_assoc.
Qed.

Lemma polls_until_completed_witness :
  ∃ w',
    run polling_world
      (poll_rounds 1 0
         [ downloading (10 # 1); downloading (55 # 1); finished (Some "x.mp4") ])
    = Some w'
    ∧ phase w' = Some Completed
    ∧ downloadFilename_text (dom w') = "x.mp4"
    ∧ timers (env w') = ∅.
Proof.
  assert (Hds : Forall in_progress [downloading (10 # 1); downloading (55 # 1)]).
  { repeat (apply Forall_cons; split; [split; discriminate|]).
    apply Forall_nil. exact I. }
  destruct (polls_until_completed 1
              [downloading (10 # 1); downloading (55 # 1)]
              (finished (Some "x.mp4")) polling_world
              (proj1 (proj2 (proj2 polling_world_state)))
              (proj1 (proj2 (proj2 (proj2 polling_world_state))))
              Hds eq_refl)
    as (w' & Hrun & Hphase & Hname & _ & Hempty & _).
  exists w'.
  rewrite (proj2 (proj2 (proj2 (proj2 polling_world_state)))) in Hrun.
  split; [exact Hrun|]. split; [exact Hphase|]. split; [exact Hname | exact Hempty].
Defined.

(** ** A response that arrives late *)

(** X16: responses are not matched against the job they were asked for.  A
    poll that is still in flight when the page is reset is handled when it
    settles like any other: answered [completed], it brings back the
    completed section, although no job handle and no metadata are stored any
    more and no timer runs. *)
Theorem late_poll_after_reset (n : nat) (data : Progress.data) (w : world) :
  timers_tracked w →
  pending (env w) !! n = Some ProgressK →
  Progress.status data = Some "completed" →
  ∃ w',
    run w [ NewDownloadClicked; Settled n (ProgressResponse (Fulfilled data)) ]
    = Some w'
    ∧ phase w' = Some Completed
    ∧ currentJobId (vars w') = None
    ∧ currentVideoData (vars w') = None
    ∧ timers (env w') = ∅
    ∧ downloadLink_onclick (dom w')
      = Some (or_default (Progress.filename data) "video.mp4").
Proof.
  intros Ht Hn Hs.
  destruct (resetApp_clears w Ht) as (Hdata & Hjob & Hint & Htimers & _).
  destruct (stopProgressPolling_frame w) as (_ & _ & _ & _ & _ & Hpend & _).
  assert (Hpend' : pending (env (resetApp w)) = pending (env w)) by exact Hpend.
  cbn [run]. unfold step at 1.
  unfold step. rewrite Hpend', Hn. cbn [resume].
  eexists. split; [reflexivity|].
  unfold progressTick_resume. rewrite decide_True by exact Hs.
  set (w0 := on_env _ (resetApp w)).
  set (w1 := updateProgress data w0).
  assert (Hnone : progressInterval (vars w1) = None) by exact Hint.
  assert (Hstop : stopProgressPolling w1 = w1).
  { unfold stopProgressPolling. by rewrite Hnone. }
  rewrite Hstop.
  destruct (showComplete_shows data w1) as (Hphase & _ & Hlink & Hvars & Henv).
  cbv zeta in Hphase, Hlink, Hvars, Henv.
  rewrite Hvars, Henv, Hlink.
  split; [exact Hphase|]. split; [exact Hjob|]. split; [exact Hdata|].
  split; [exact Htimers | reflexivity].
Qed.

Lemma late_poll_after_reset_witness :
  ∃ w',
    run (progressTick polling_world)
      [ NewDownloadClicked;
        Settled 0 (ProgressResponse (Fulfilled (finished (Some "x.mp4")))) ]
    = Some w'
    ∧ phase w' = Some Completed
    ∧ currentJobId (vars w') = None.
Proof.
  assert (Ht : timers_tracked (progressTick polling_world))
    by (vm_compute; reflexivity).
  destruct (late_poll_after_reset 0 (finished (Some "x.mp4"))
              (progressTick polling_world) Ht eq_refl eq_refl)
    as (w' & Hrun & Hphase & Hjob & _).
  exists w'. split; [exact Hrun|]. split; [exact Hphase | exact Hjob].
Defined.
